(** * HullOverlap: overlap of two survey lines through their hulls

    A shallow embedding of [src/geometry/HullOverlap.hpp]: Andrew's monotone
    chain ([PointAndrews], [cross], [AndrewsConvex_hull]) and the class
    [HullOverlap] (constructor, [computeHullsAndPointsInBothHulls], the
    line-scoped accessors and the two bounding-box queries).

    Coordinates are IEEE 754 numbers, [float] (binary32, [coord_t] and the
    fields of [pcl::PointXYZ]) and [double] (binary64, [coord2_t] and
    [Eigen::Vector3d]), computed with the executable operations of
    [SpecFloat].  What is written to [std::cout] and [std::cerr] is not
    modelled. *)

From Stdlib Require Import String.
From Stdlib Require Import ZArith NArith List Bool Lia Sorted.
From Stdlib Require Import Floats.SpecFloat.
Import ListNotations.

Local Open Scope Z_scope.

(** ** IEEE 754 arithmetic at the two precisions of the source *)

Module IEEE754.

Definition float := spec_float.
Definition double := spec_float.

Definition nan : spec_float := S754_nan.
Definition zero : spec_float := S754_zero false.

Module F32.
Definition prec := 24.
Definition emax := 128.
Definition add : float -> float -> float := SFadd prec emax.
Definition sub : float -> float -> float := SFsub prec emax.
Definition mul : float -> float -> float := SFmul prec emax.
(** An integer literal or an [int] converted to [float]. *)
Definition of_Z (z : Z) : float := binary_normalize prec emax z 0 false.
End F32.

Module F64.
Definition prec := 53.
Definition emax := 1024.
Definition add : double -> double -> double := SFadd prec emax.
Definition sub : double -> double -> double := SFsub prec emax.
Definition mul : double -> double -> double := SFmul prec emax.
Definition div : double -> double -> double := SFdiv prec emax.
Definition sqrt : double -> double := SFsqrt prec emax.
Definition of_Z (z : Z) : double := binary_normalize prec emax z 0 false.
(** [std::numeric_limits<double>::max()]: the largest finite double. *)
Definition numeric_limits_max : double := SFmax_float prec emax.
(** [std::numeric_limits<double>::min()]: the smallest positive
    normalised double, 2^-1022. *)
Definition numeric_limits_min : double :=
  S754_finite false (Pos.iter xO xH 52) (-1074).
End F64.

(** Conversions between the two formats: widening is exact, narrowing
    rounds to nearest even. *)
Definition convert (prec emax : Z) (x : spec_float) : spec_float :=
  match x with
  | S754_finite s m e => binary_normalize prec emax (cond_Zopp s (Zpos m)) e s
  | _ => x
  end.

Definition to_double : float -> double := convert F64.prec F64.emax.
Definition to_float : double -> float := convert F32.prec F32.emax.

(** The comparison operators of C++ on floating-point operands. *)
Definition ltb : spec_float -> spec_float -> bool := SFltb.
Definition leb : spec_float -> spec_float -> bool := SFleb.
Definition eqb : spec_float -> spec_float -> bool := SFeqb.
Definition gtb (x y : spec_float) : bool := SFltb y x.

Definition is_nan (x : spec_float) : bool :=
  match x with S754_nan => true | _ => false end.

End IEEE754.

Import IEEE754.

(** ** Andrew's monotone chain *)

Module PointAndrews.

Record t := Build { x : float; y : float; index : N }.

(** [operator<]: lexicographic on [x], then [y]. *)
Definition lt (p q : t) : bool :=
  ltb (x p) (x q) || (eqb (x p) (x q) && ltb (y p) (y q)).

End PointAndrews.

Abbreviation PointAndrews := PointAndrews.t.

(** [cross(O, A, B)]: the operands are [coord_t], so the products and the
    difference are computed in binary32; the result is widened to
    [coord2_t]. *)
Definition cross (o a b : PointAndrews) : double :=
  to_double
    (F32.sub
       (F32.mul (F32.sub (PointAndrews.x a) (PointAndrews.x o))
                (F32.sub (PointAndrews.y b) (PointAndrews.y o)))
       (F32.mul (F32.sub (PointAndrews.y a) (PointAndrews.y o))
                (F32.sub (PointAndrews.x b) (PointAndrews.x o)))).

(** The test [cross(hull[k-2], hull[k-1], p) <= 0] of both chains. *)
Definition not_left_turn (o a b : PointAndrews) : bool :=
  leb (cross o a b) (F64.of_Z 0).

(** The live part [hull[0..k)] of the array [hull] is kept as a stack, the
    most recent vertex [hull[k-1]] first; the entries at [k] and beyond are
    overwritten before they are read, and dropped by the final [resize].

    [pop_while t p hull] is the loop
    [while (k >= t && cross(hull[k-2], hull[k-1], p) <= 0) k--;]
    ([t] is 2 for the lower chain, and at least 2 for the upper chain once
    the lower chain holds a point, so [hull[k-2]] is there when the test
    reads it). *)
Fixpoint pop_while (t : nat) (p : PointAndrews) (hull : list PointAndrews)
  : list PointAndrews :=
  match hull with
  | a :: ((o :: _) as hull') =>
      if (t <=? length hull)%nat && not_left_turn o a p
      then pop_while t p hull'
      else hull
  | _ => hull
  end.

(** One iteration of either chain: pop, then [hull[k++] = p]. *)
Definition chain_step (t : nat) (hull : list PointAndrews) (p : PointAndrews)
  : list PointAndrews :=
  p :: pop_while t p hull.

(** [for (i = 0; i < n; ++i)] over the sorted points. *)
Definition lower_chain (points : list PointAndrews) : list PointAndrews :=
  fold_left (chain_step 2) points [].

(** [for (i = n-1, t = k+1; i > 0; --i)] visits [points[n-2]] down to
    [points[0]]. *)
Definition upper_chain (points : list PointAndrews) (lower : list PointAndrews)
  : list PointAndrews :=
  let t := S (length lower) in
  fold_left (chain_step t) (rev (removelast points)) lower.

Section Andrews.

(** [std::sort] with [operator<]; the order it leaves among equivalent
    elements is unspecified, so it is a parameter. *)
Variable sort : list PointAndrews -> list PointAndrews.

(** [AndrewsConvex_hull(hull, points)] returns the new contents of its two
    reference arguments: the hull and the (possibly sorted) points. *)
Definition AndrewsConvex_hull (points : list PointAndrews)
  : list PointAndrews * list PointAndrews :=
  let n := length points in
  if (n <=? 3)%nat then (points, points)
  else
    let points := sort points in
    let hull := upper_chain points (lower_chain points) in
    (* hull.resize(k-1): drops hull[k-1], the top of the stack *)
    (rev (tl hull), points).

End Andrews.

(** An instance of [std::sort]: insertion sort with [operator<]. *)
Fixpoint insert_sorted (p : PointAndrews) (l : list PointAndrews)
  : list PointAndrews :=
  match l with
  | [] => [p]
  | q :: l' => if PointAndrews.lt q p then q :: insert_sorted p l' else p :: l
  end.

Definition insertion_sort (l : list PointAndrews) : list PointAndrews :=
  fold_right insert_sorted [] l.

Definition pa (x y : Z) (i : N) : PointAndrews :=
  PointAndrews.Build (F32.of_Z x) (F32.of_Z y) i.

(** ** Points, clouds and vectors *)

Module PointXYZ.
(** [pcl::PointXYZ]: three [float] coordinates. *)
Record t := Build { x : float; y : float; z : float }.
End PointXYZ.

Abbreviation PointXYZ := PointXYZ.t.

(** The [points] of a [pcl::PointCloud<pcl::PointXYZ>]. *)
Definition PointCloud := list PointXYZ.

Module Vector3d.
(** [Eigen::Vector3d]: three [double] coefficients. *)
Record t := Build { v0 : double; v1 : double; v2 : double }.

(** [norm()]: the square root of the sum of the squared coefficients
    (the order of the sum is Eigen's; no result below depends on it). *)
Definition norm (v : t) : double :=
  F64.sqrt (F64.add (F64.add (F64.mul (v0 v) (v0 v)) (F64.mul (v1 v) (v1 v)))
                    (F64.mul (v2 v) (v2 v))).

(** [v / s]. *)
Definition div (v : t) (s : double) : t :=
  Build (F64.div (v0 v) s) (F64.div (v1 v) s) (F64.div (v2 v) s).

(** [u.cross(v)]. *)
Definition cross (u v : t) : t :=
  Build (F64.sub (F64.mul (v1 u) (v2 v)) (F64.mul (v2 u) (v1 v)))
        (F64.sub (F64.mul (v2 u) (v0 v)) (F64.mul (v0 u) (v2 v)))
        (F64.sub (F64.mul (v0 u) (v1 v)) (F64.mul (v1 u) (v0 v))).
End Vector3d.

Abbreviation Vector3d := Vector3d.t.

(** ** How a call ends *)

Inductive outcome (A : Type) : Type :=
| Returned (a : A)      (* the call returns *)
| Exited (status : Z)   (* [exit(status)]: the process ends *)
| Undefined.            (* a read through a null pointer or outside a vector *)

Arguments Returned {A} a.
Arguments Exited {A} status.
Arguments Undefined {A}.

Definition bind {A B} (m : outcome A) (k : A -> outcome B) : outcome B :=
  match m with
  | Returned a => k a
  | Exited s => Exited s
  | Undefined => Undefined
  end.

Notation "x <- m ;; k" := (bind m (fun x => k))
  (at level 61, m at next level, right associativity).
Notation "' pat <- m ;; k" := (bind m (fun x => match x with pat => k end))
  (at level 61, pat pattern, m at next level, right associativity).

(** [*p] and [p->...] for a smart pointer; [None] is [nullptr]. *)
Definition deref {A} (p : option A) : outcome A :=
  match p with
  | Some a => Returned a
  | None => Undefined
  end.

(** [v[i]] with a [uint64_t] index. *)
Definition at_index {A} (v : list A) (i : N) : outcome A :=
  if (i <? N.of_nat (length v))%N
  then match nth_error v (N.to_nat i) with
       | Some a => Returned a
       | None => Undefined
       end
  else Undefined.

(** [n - 1] on [uint64_t]. *)
Definition uint64_pred (n : N) : N := ((n + (2 ^ 64 - 1)) mod 2 ^ 64)%N.

(** [static_cast<int>] of a [uint64_t]. *)
Definition to_int (n : N) : Z := (Z.of_N n + 2 ^ 31) mod 2 ^ 32 - 2 ^ 31.

(** [for (uint64_t count = c; count < v.size(); count++)]: the positions the
    loop visits, each with its element. *)
Definition visited_from {A} (c : N) (v : list A) : list (N * A) :=
  skipn (N.to_nat c) (combine (map N.of_nat (seq 0 (length v))) v).

(** ** The class HullOverlap *)

Module HullOverlap.

Record t := Build {
  line1 : PointCloud;
  line2 : PointCloud;
  a : double;
  b : double;
  c : double;
  d : double;
  hullMethod : string;
  alphaLine1 : double;
  alphaLine2 : double;
  (* the [values] of a [pcl::ModelCoefficients], a vector of [float] *)
  coefficients : list float;
  line1InPlane : option PointCloud;
  line2InPlane : option PointCloud;
  line1InPlane2D : option PointCloud;
  line2InPlane2D : option PointCloud;
  hull1Vertices : option PointCloud;
  hull2Vertices : option PointCloud;
  (* the [indices] of a [pcl::PointIndices], a vector of [int] *)
  hull1PointIndices : list Z;
  hull2PointIndices : list Z;
  line1InBothHullPointIndices : list N;
  line2InBothHullPointIndices : list N;
  vector1 : Vector3d;
  vector2 : Vector3d;
  refPoint : PointXYZ
}.

(** The members a run of [computeHullsAndPointsInBothHulls] writes. *)
Definition assign (this : t)
    (l1p l2p l1d l2d h1 h2 : option PointCloud) (hi1 hi2 : list Z)
    (oi1 oi2 : list N) (v1 v2 : Vector3d) (ref : PointXYZ) : t :=
  {| line1 := line1 this; line2 := line2 this;
     a := a this; b := b this; c := c this; d := d this;
     hullMethod := hullMethod this;
     alphaLine1 := alphaLine1 this; alphaLine2 := alphaLine2 this;
     coefficients := coefficients this;
     line1InPlane := l1p; line2InPlane := l2p;
     line1InPlane2D := l1d; line2InPlane2D := l2d;
     hull1Vertices := h1; hull2Vertices := h2;
     hull1PointIndices := hi1; hull2PointIndices := hi2;
     line1InBothHullPointIndices := oi1;
     line2InBothHullPointIndices := oi2;
     vector1 := v1; vector2 := v2; refPoint := ref |}.

Definition valid_method (m : string) : bool :=
  (m =? "PCL ConcaveHull")%string || (m =? "Andrew's")%string.

(** The members as the initialiser list of the constructor leaves them,
    with the four [coefficients->values] its body stores.  The input
    lines are taken non-null. *)
Definition initial (line1In line2In : PointCloud) (a b c d : double)
    (hullMethod : string) (alphaLine1 alphaLine2 : double) : t :=
  {| line1 := line1In; line2 := line2In;
     a := a; b := b; c := c; d := d;
     hullMethod := hullMethod;
     alphaLine1 := alphaLine1; alphaLine2 := alphaLine2;
     coefficients := [to_float a; to_float b; to_float c; to_float d];
     line1InPlane := Some []; line2InPlane := Some [];
     line1InPlane2D := Some []; line2InPlane2D := Some [];
     hull1Vertices := Some []; hull2Vertices := Some [];
     hull1PointIndices := []; hull2PointIndices := [];
     line1InBothHullPointIndices := [];
     line2InBothHullPointIndices := [];
     vector1 := Vector3d.Build (F64.of_Z 1) (F64.of_Z 0) (F64.of_Z 0);
     vector2 := Vector3d.Build (F64.of_Z 0) (F64.of_Z 1) (F64.of_Z 0);
     refPoint := PointXYZ.Build (F32.of_Z 0) (F32.of_Z 0) (F32.of_Z 0) |}.

(** The constructor: [exit( 1 )] on a method that is neither of the two. *)
Definition new (line1In line2In : PointCloud) (a b c d : double)
    (hullMethod : string) (alphaLine1 alphaLine2 : double) : outcome t :=
  let this :=
    initial line1In line2In a b c d hullMethod alphaLine1 alphaLine2 in
  if negb (hullMethod =? "PCL ConcaveHull")%string
     && negb (hullMethod =? "Andrew's")%string
  then Exited 1
  else Returned this.

(** The three loops of [computeVerticesOfHullAndrews] declare their
    counter without an initialiser ([for ( uint64_t count; ... )]): each
    starts from whatever value the counter happens to hold. *)
Record indeterminate := Indeterminate {
  count_points : N;
  count_vertices : N;
  count_indices : N
}.

Section Engine.

(** The capabilities of PCL and of the C++ library the class calls:
    [pcl::ProjectInliers::filter] for a plane model,
    [pcl::isXYPointIn2DXYPolygon], [pcl::ConcaveHull] (its
    reconstruction, told whether [setKeepInformation(true)] was called,
    and [getHullPointIndices]) and [std::sort]. *)
Variable ProjectInliers_filter : list float -> PointCloud -> PointCloud.
Variable isXYPointIn2DXYPolygon : PointXYZ -> PointCloud -> bool.
Variable ConcaveHull_reconstruct : bool -> double -> PointCloud -> PointCloud.
Variable ConcaveHull_getHullPointIndices : double -> PointCloud -> list Z.
Variable sort : list PointAndrews -> list PointAndrews.

Definition createCloudFromProjectionInPlane (coefficients : list float)
    (cloudIn : PointCloud) (cloudOut : option PointCloud)
  : outcome PointCloud :=
  _ <- deref cloudOut ;;                      (* cloudOut->clear() *)
  Returned (ProjectInliers_filter coefficients cloudIn).

(** Returns the new [refPoint], [vector1] and [vector2]. *)
Definition computeTwoVectorsAndRefPoint (a b c : double)
    (line1InPlane : option PointCloud)
  : outcome (PointXYZ * Vector3d * Vector3d) :=
  points <- deref line1InPlane ;;
  refPoint <- at_index points 0 ;;
  let nbPointLine1 := N.of_nat (length points) in
  last <- at_index points (uint64_pred nbPointLine1) ;;
  first <- at_index points 0 ;;
  let vector1 :=
    Vector3d.Build
      (to_double (F32.sub (PointXYZ.x last) (PointXYZ.x first)))
      (to_double (F32.sub (PointXYZ.y last) (PointXYZ.y first)))
      (to_double (F32.sub (PointXYZ.z last) (PointXYZ.z first))) in
  let vector1 := Vector3d.div vector1 (Vector3d.norm vector1) in
  let normalToPlane := Vector3d.Build a b c in
  let vector2 := Vector3d.cross normalToPlane vector1 in
  let vector2 := Vector3d.div vector2 (Vector3d.norm vector2) in
  Returned (refPoint, vector1, vector2).

(** One point of [createCloudInPlane2D]: the differences are [float],
    the products and sums [double], the stores narrow to [float]. *)
Definition inPlane2D (refPoint : PointXYZ) (vector1 vector2 : Vector3d)
    (p : PointXYZ) : PointXYZ :=
  let dx := to_double (F32.sub (PointXYZ.x p) (PointXYZ.x refPoint)) in
  let dy := to_double (F32.sub (PointXYZ.y p) (PointXYZ.y refPoint)) in
  let dz := to_double (F32.sub (PointXYZ.z p) (PointXYZ.z refPoint)) in
  let along (v : Vector3d) :=
    F64.add (F64.add (F64.mul dx (Vector3d.v0 v)) (F64.mul dy (Vector3d.v1 v)))
            (F64.mul dz (Vector3d.v2 v)) in
  PointXYZ.Build (to_float (along vector1)) (to_float (along vector2))
                 (F32.of_Z 0).

Definition createCloudInPlane2D (refPoint : PointXYZ)
    (vector1 vector2 : Vector3d)
    (cloudIn : option PointCloud) (cloudOut : option PointCloud)
  : outcome PointCloud :=
  _ <- deref cloudOut ;;                      (* cloudOut->clear() *)
  points <- deref cloudIn ;;
  Returned (map (inPlane2D refPoint vector1 vector2) points).

(** Returns the new [*hullVertices] and [hullPointIndices.indices]. *)
Definition computeVerticesOfConcaveHull (cloudIn : option PointCloud)
    (alpha : double) (hullVertices : option PointCloud)
    (hullPointIndices : list Z) (keepInformation : bool)
  : outcome (PointCloud * list Z) :=
  _ <- deref hullVertices ;;                  (* hullVertices->clear() *)
  points <- deref cloudIn ;;
  let vertices := ConcaveHull_reconstruct keepInformation alpha points in
  Returned (vertices,
            if keepInformation
            then ConcaveHull_getHullPointIndices alpha points
            else hullPointIndices).

Definition computeVerticesOfHullAndrews (u : indeterminate)
    (cloudIn : option PointCloud) (hullVertices : option PointCloud)
    (hullPointIndices : list Z) (keepInformation : bool)
  : outcome (PointCloud * list Z) :=
  cloud <- deref cloudIn ;;
  let points :=
    map (fun '(count, p) =>
           PointAndrews.Build (PointXYZ.x p) (PointXYZ.y p) count)
        (visited_from (count_points u) cloud) in
  let hullAndrews := fst (AndrewsConvex_hull sort points) in
  _ <- deref hullVertices ;;                  (* hullVertices->clear() *)
  let vertices :=
    map (fun '(_, h) =>
           PointXYZ.Build (PointAndrews.x h) (PointAndrews.y h) (F32.of_Z 0))
        (visited_from (count_vertices u) hullAndrews) in
  Returned (vertices,
            if keepInformation
            then map (fun '(_, h) => to_int (PointAndrews.index h))
                     (visited_from (count_indices u) hullAndrews)
            else hullPointIndices).

(** [pcl::isXYPointIn2DXYPolygon( point, polygon )] starts by reading
    [polygon.points[ size - 1 ]], before it walks the edges; with an empty
    polygon that read is outside the vector.  The answer of the test on a
    polygon with a vertex is the parameter [isXYPointIn2DXYPolygon].  The
    three functions below test every point of their cloud against the same
    polygon, so the read goes wrong at their first point or at none: they
    make it once, before their loop. *)
Definition last_vertex (polygon : PointCloud) : outcome PointXYZ :=
  at_index polygon (uint64_pred (N.of_nat (length polygon))).

(** The loop of [findPointsInHull] from position [count] on, against a
    polygon with a vertex; returns what is appended to [*cloudOut] and to
    [indexPointInHull]. *)
Fixpoint findPointsInHull_loop (lineOriginal hullVertices : PointCloud)
    (count : nat) (cloudIn : PointCloud) : outcome (PointCloud * list N) :=
  match cloudIn with
  | [] => Returned ([], [])
  | p :: rest =>
      if isXYPointIn2DXYPolygon p hullVertices then
        q <- at_index lineOriginal (N.of_nat count) ;;
        '(out, idx) <- findPointsInHull_loop lineOriginal hullVertices
                                             (S count) rest ;;
        Returned (q :: out, N.of_nat count :: idx)
      else findPointsInHull_loop lineOriginal hullVertices (S count) rest
  end.

Definition findPointsInHull (lineOriginal : PointCloud)
    (cloudIn : option PointCloud) (cloudOut : option PointCloud)
    (hullVertices : option PointCloud)
  : outcome (PointCloud * list N) :=
  _ <- deref cloudOut ;;                      (* cloudOut->clear() *)
  points <- deref cloudIn ;;
  match points with
  | [] => Returned ([], [])
  | _ => hull <- deref hullVertices ;;
         _ <- last_vertex hull ;;
         findPointsInHull_loop lineOriginal hull 0 points
  end.

Fixpoint findPointsInHullOnlyPointIndices_loop (hullVertices : PointCloud)
    (count : nat) (cloudIn : PointCloud) : list N :=
  match cloudIn with
  | [] => []
  | p :: rest =>
      if isXYPointIn2DXYPolygon p hullVertices
      then N.of_nat count
           :: findPointsInHullOnlyPointIndices_loop hullVertices (S count) rest
      else findPointsInHullOnlyPointIndices_loop hullVertices (S count) rest
  end.

Definition findPointsInHullOnlyPointIndices (cloudIn : option PointCloud)
    (hullVertices : option PointCloud) : outcome (list N) :=
  points <- deref cloudIn ;;
  match points with
  | [] => Returned []
  | _ => hull <- deref hullVertices ;;
         _ <- last_vertex hull ;;
         Returned (findPointsInHullOnlyPointIndices_loop hull 0 points)
  end.

Fixpoint findPointsInHullOnlyPoints_loop (lineOriginal hullVertices : PointCloud)
    (count : nat) (cloudIn : PointCloud) : outcome PointCloud :=
  match cloudIn with
  | [] => Returned []
  | p :: rest =>
      if isXYPointIn2DXYPolygon p hullVertices then
        q <- at_index lineOriginal (N.of_nat count) ;;
        out <- findPointsInHullOnlyPoints_loop lineOriginal hullVertices
                                               (S count) rest ;;
        Returned (q :: out)
      else findPointsInHullOnlyPoints_loop lineOriginal hullVertices
                                           (S count) rest
  end.

Definition findPointsInHullOnlyPoints (lineOriginal : PointCloud)
    (cloudIn : option PointCloud) (cloudOut : option PointCloud)
    (hullVertices : option PointCloud) : outcome PointCloud :=
  _ <- deref cloudOut ;;                      (* cloudOut->clear() *)
  points <- deref cloudIn ;;
  match points with
  | [] => Returned []
  | _ => hull <- deref hullVertices ;;
         _ <- last_vertex hull ;;
         findPointsInHullOnlyPoints_loop lineOriginal hull 0 points
  end.

(** [if ( cloud != nullptr ) cloud->clear();] *)
Definition cleared (cloud : option PointCloud) : option PointCloud :=
  match cloud with
  | Some _ => @Some PointCloud []
  | None => None
  end.

(** The hull stage of [computeHullsAndPointsInBothHulls]: both hulls by
    the method of the engine, or [exit(1)]. *)
Definition computeBothHulls (u1 u2 : indeterminate) (this : t)
    (line1InPlane2D line2InPlane2D : option PointCloud)
    (minimalMemory : bool)
  : outcome ((PointCloud * list Z) * (PointCloud * list Z)) :=
  if (hullMethod this =? "PCL ConcaveHull")%string then
    hull1 <- computeVerticesOfConcaveHull line1InPlane2D (alphaLine1 this)
               (hull1Vertices this) (hull1PointIndices this)
               (negb minimalMemory) ;;
    hull2 <- computeVerticesOfConcaveHull line2InPlane2D (alphaLine2 this)
               (hull2Vertices this) (hull2PointIndices this)
               (negb minimalMemory) ;;
    Returned (hull1, hull2)
  else if (hullMethod this =? "Andrew's")%string then
    hull1 <- computeVerticesOfHullAndrews u1 line1InPlane2D
               (hull1Vertices this) (hull1PointIndices this)
               (negb minimalMemory) ;;
    hull2 <- computeVerticesOfHullAndrews u2 line2InPlane2D
               (hull2Vertices this) (hull2PointIndices this)
               (negb minimalMemory) ;;
    Returned (hull1, hull2)
  else Exited 1.

(** [computeHullsAndPointsInBothHulls(line1InBothHull, line2InBothHull,
    minimalMemory)].  Returns the engine after the call, the pair of
    counts, and the two caller's clouds after the call ([None] where the
    caller passed [nullptr]).  [u1] and [u2] are the starting values of
    the counters in the two calls of [computeVerticesOfHullAndrews]. *)
Definition computeHullsAndPointsInBothHulls (u1 u2 : indeterminate)
    (this : t) (line1InBothHull line2InBothHull : option PointCloud)
    (minimalMemory : bool)
  : outcome (t * (N * N) * (option PointCloud * option PointCloud)) :=
  (* if ( lineNInBothHull != nullptr ) lineNInBothHull->clear(); *)
  let line1InBothHull := cleared line1InBothHull in
  let line2InBothHull := cleared line2InBothHull in
  l1p <- createCloudFromProjectionInPlane (coefficients this) (line1 this)
           (line1InPlane this) ;;
  '(ref, v1, v2) <- computeTwoVectorsAndRefPoint (a this) (b this) (c this)
                      (Some l1p) ;;
  l1d <- createCloudInPlane2D ref v1 v2 (Some l1p) (line1InPlane2D this) ;;
  let line1InPlane' := if minimalMemory then None else Some l1p in
  l2p <- createCloudFromProjectionInPlane (coefficients this) (line2 this)
           (line2InPlane this) ;;
  l2d <- createCloudInPlane2D ref v1 v2 (Some l2p) (line2InPlane2D this) ;;
  let line2InPlane' := if minimalMemory then None else Some l2p in
  '((h1, hi1), (h2, hi2)) <-
     computeBothHulls u1 u2 this (Some l1d) (Some l2d) minimalMemory ;;
  match line1InBothHull, line2InBothHull with
  | Some _, Some _ =>
      if minimalMemory then
        out1 <- findPointsInHullOnlyPoints (line1 this) (Some l1d)
                  line1InBothHull (Some h2) ;;
        out2 <- findPointsInHullOnlyPoints (line2 this) (Some l2d)
                  line2InBothHull (Some h1) ;;
        Returned
          (assign this line1InPlane' line2InPlane' None None None None
                  hi1 hi2
                  (line1InBothHullPointIndices this)
                  (line2InBothHullPointIndices this) v1 v2 ref,
           (N.of_nat (length out1), N.of_nat (length out2)),
           (Some out1, Some out2))
      else
        '(out1, oi1) <- findPointsInHull (line1 this) (Some l1d)
                          line1InBothHull (Some h2) ;;
        '(out2, oi2) <- findPointsInHull (line2 this) (Some l2d)
                          line2InBothHull (Some h1) ;;
        Returned
          (assign this line1InPlane' line2InPlane' (Some l1d) (Some l2d)
                  (Some h1) (Some h2) hi1 hi2 oi1 oi2 v1 v2 ref,
           (N.of_nat (length out1), N.of_nat (length out2)),
           (Some out1, Some out2))
  | _, _ =>
      oi1 <- findPointsInHullOnlyPointIndices (Some l1d) (Some h2) ;;
      oi2 <- findPointsInHullOnlyPointIndices (Some l2d) (Some h1) ;;
      Returned
        (assign this line1InPlane' line2InPlane' (Some l1d) (Some l2d)
                (Some h1) (Some h2) hi1 hi2 oi1 oi2 v1 v2 ref,
         (N.of_nat (length oi1), N.of_nat (length oi2)),
         (line1InBothHull, line2InBothHull))
  end.

(** [computePointsInBothHulls(line1InBothHull, line2InBothHull)]: the call
    in minimal-memory mode. *)
Definition computePointsInBothHulls (u1 u2 : indeterminate) (this : t)
    (line1InBothHull line2InBothHull : option PointCloud)
  : outcome (t * (N * N) * (option PointCloud * option PointCloud)) :=
  computeHullsAndPointsInBothHulls u1 u2 this
    line1InBothHull line2InBothHull true.

End Engine.

(** *** The line-scoped accessors; [lineNumber] is an [int] *)

Definition invalid_line (lineNumber : Z) : bool :=
  (lineNumber <? 0) || (lineNumber >? 1).

Definition getConstPtrlineInBothHullPointIndices (this : t) (lineNumber : Z)
  : option (list N) :=
  if invalid_line lineNumber then None
  else if lineNumber =? 0 then Some (line1InBothHullPointIndices this)
  else Some (line2InBothHullPointIndices this).

Definition getConstPtrlineInPlane2D (this : t) (lineNumber : Z)
  : option PointCloud :=
  if invalid_line lineNumber then None
  else if lineNumber =? 0 then line1InPlane2D this
  else line2InPlane2D this.

Definition getConstPtrlineInPlane3D (this : t) (lineNumber : Z)
  : option PointCloud :=
  if invalid_line lineNumber then None
  else if lineNumber =? 0 then line1InPlane this
  else line2InPlane this.

Definition getConstPtrVerticesIndices (this : t) (lineNumber : Z)
  : option (list Z) :=
  if invalid_line lineNumber then None
  else if lineNumber =? 0 then Some (hull1PointIndices this)
  else Some (hull2PointIndices this).

Definition getNbPointsInOverlap (this : t) (lineNumber : Z) : N :=
  if invalid_line lineNumber then 0%N
  else if lineNumber =? 0 then N.of_nat (length (line1InBothHullPointIndices this))
  else N.of_nat (length (line2InBothHullPointIndices this)).

(** *** The bounding boxes of the overlap *)

(** [if ( v < vMin ) vMin = v;  if ( v > vMax ) vMax = v;] with [v] a
    [float] and the bounds [double]. *)
Definition update_min_max (v : float) (bounds : double * double)
  : double * double :=
  let '(vMin, vMax) := bounds in
  let vMin := if ltb (to_double v) vMin then to_double v else vMin in
  let vMax := if gtb (to_double v) vMax then to_double v else vMax in
  (vMin, vMax).

Definition initial_bounds : double * double :=
  (F64.numeric_limits_max, F64.numeric_limits_min).

(** One of the loops over an overlap index list: the bounds of [x], [y]
    and [z] after it.  The 2D query runs it without [z]. *)
Fixpoint min_max_loop (cloud : option PointCloud) (indices : list N)
    (bx by_ bz : double * double)
  : outcome ((double * double) * (double * double) * (double * double)) :=
  match indices with
  | [] => Returned (bx, by_, bz)
  | i :: rest =>
      points <- deref cloud ;;
      p <- at_index points i ;;
      min_max_loop cloud rest
        (update_min_max (PointXYZ.x p) bx)
        (update_min_max (PointXYZ.y p) by_)
        (update_min_max (PointXYZ.z p) bz)
  end.

Fixpoint min_max_loop2D (cloud : option PointCloud) (indices : list N)
    (bx by_ : double * double)
  : outcome ((double * double) * (double * double)) :=
  match indices with
  | [] => Returned (bx, by_)
  | i :: rest =>
      points <- deref cloud ;;
      p <- at_index points i ;;
      min_max_loop2D cloud rest
        (update_min_max (PointXYZ.x p) bx)
        (update_min_max (PointXYZ.y p) by_)
  end.

(** Both queries return [OK] and the new [minPt] and [maxPt]. *)
Definition getMinMaxPointsInOverlapPlane2D (this : t) (minPt maxPt : PointXYZ)
  : outcome (bool * PointXYZ * PointXYZ) :=
  if (0 <? length (line1InBothHullPointIndices this))%nat
     && (0 <? length (line2InBothHullPointIndices this))%nat
  then
    '(bx, by_) <- min_max_loop2D (line1InPlane2D this)
                    (line1InBothHullPointIndices this)
                    initial_bounds initial_bounds ;;
    '((xMin, xMax), (yMin, yMax)) <-
       min_max_loop2D (line2InPlane2D this)
         (line2InBothHullPointIndices this) bx by_ ;;
    Returned (true,
              PointXYZ.Build (to_float xMin) (to_float yMin) (F32.of_Z 0),
              PointXYZ.Build (to_float xMax) (to_float yMax) (F32.of_Z 0))
  else Returned (false, minPt, maxPt).

Definition getMinMaxPointsInOverlapPlane3D (this : t) (minPt maxPt : PointXYZ)
  : outcome (bool * PointXYZ * PointXYZ) :=
  if (0 <? length (line1InBothHullPointIndices this))%nat
     && (0 <? length (line2InBothHullPointIndices this))%nat
  then
    '(bx, by_, bz) <- min_max_loop (line1InPlane this)
                        (line1InBothHullPointIndices this)
                        initial_bounds initial_bounds initial_bounds ;;
    '((xMin, xMax), (yMin, yMax), (zMin, zMax)) <-
       min_max_loop (line2InPlane this)
         (line2InBothHullPointIndices this) bx by_ bz ;;
    Returned (true,
              PointXYZ.Build (to_float xMin) (to_float yMin) (to_float zMin),
              PointXYZ.Build (to_float xMax) (to_float yMax) (to_float zMax))
  else Returned (false, minPt, maxPt).

End HullOverlap.

(** ** Instances of the outside capabilities, to run the engine on examples *)

(** A projection for clouds that already lie in the plane. *)
Definition project_in_plane (_ : list float) (cloud : PointCloud) : PointCloud :=
  cloud.

(** A polygon test that accepts the points whose [x] and [y] are those of a
    vertex of the polygon. *)
Definition on_vertex (p : PointXYZ) (polygon : PointCloud) : bool :=
  existsb (fun v => eqb (PointXYZ.x p) (PointXYZ.x v)
                    && eqb (PointXYZ.y p) (PointXYZ.y v)) polygon.

(** A hull capability that returns its input, and the positions of it. *)
Definition whole_cloud (_ : bool) (_ : double) (cloud : PointCloud) : PointCloud :=
  cloud.

Definition whole_cloud_indices (_ : double) (cloud : PointCloud) : list Z :=
  map Z.of_nat (seq 0 (length cloud)).

Definition xyz (x y z : Z) : PointXYZ :=
  PointXYZ.Build (F32.of_Z x) (F32.of_Z y) (F32.of_Z z).

(** What the caller of [computeHullsAndPointsInBothHulls] gets: the pair of
    counts and the contents of its two clouds. *)
Definition observed {S A B : Type} (r : outcome (S * A * B)) : outcome (A * B) :=
  '(_, counts, clouds) <- r ;; Returned (counts, clouds).

(** The vertices of the two hulls, without their index lists. *)
Definition vertices_of {I : Type}
    (r : outcome ((PointCloud * I) * (PointCloud * I)))
  : outcome (PointCloud * PointCloud) :=
  '((h1, _), (h2, _)) <- r ;; Returned (h1, h2).

(** The six clouds the engine owns are allocated, as the constructor leaves
    them. *)
Definition allocated (this : HullOverlap.t) : Prop :=
  HullOverlap.line1InPlane this <> None
  /\ HullOverlap.line2InPlane this <> None
  /\ HullOverlap.line1InPlane2D this <> None
  /\ HullOverlap.line2InPlane2D this <> None
  /\ HullOverlap.hull1Vertices this <> None
  /\ HullOverlap.hull2Vertices this <> None.

(** The plane [z = 0]. *)
Definition plane_z0 (line1 line2 : PointCloud) (hullMethod : string)
  : HullOverlap.t :=
  HullOverlap.initial line1 line2 (F64.of_Z 0) (F64.of_Z 0) (F64.of_Z 1)
    (F64.of_Z 0) hullMethod (F64.of_Z 1) (F64.of_Z 1).

Definition counters_at_zero : HullOverlap.indeterminate :=
  HullOverlap.Indeterminate 0 0 0.

(** Two runs of [computeVerticesOfHullAndrews] start the counter of the
    loop over the cloud and the counter of the loop that pushes the
    vertices at the same values; the counter of the loop over the indices
    is free. *)
Definition same_vertex_counters (u u' : HullOverlap.indeterminate) : Prop :=
  HullOverlap.count_points u = HullOverlap.count_points u'
  /\ HullOverlap.count_vertices u = HullOverlap.count_vertices u'.

(** Both hulls of a hull stage that returned have a vertex. *)
Definition hulls_not_empty {I : Type}
    (r : outcome ((PointCloud * I) * (PointCloud * I))) : Prop :=
  forall h1 hi1 h2 hi2,
    r = Returned ((h1, hi1), (h2, hi2)) -> h1 <> [] /\ h2 <> [].

(** Two short lines in the plane [z = 0], the second below the first. *)
Definition line_a : PointCloud := [xyz 0 0 0; xyz 1 (-1) 0; xyz 2 0 0].
Definition line_b : PointCloud := [xyz 1 (-1) 0; xyz 1 (-2) 0; xyz 0 (-2) 0].

(** An engine in full mode whose overlap is one point per line, both with
    negative coordinates in the plane and in space. *)
Definition overlap_below_axes : HullOverlap.t :=
  HullOverlap.assign (plane_z0 [] [] "Andrew's")
    (Some [xyz (-4) (-5) (-6)]) (Some [xyz (-7) (-8) (-9)])
    (Some [xyz (-1) (-1) 0]) (Some [xyz (-2) (-3) 0])
    (Some []) (Some []) [] [] [0%N] [0%N]
    (Vector3d.Build (F64.of_Z 1) (F64.of_Z 0) (F64.of_Z 0))
    (Vector3d.Build (F64.of_Z 0) (F64.of_Z 1) (F64.of_Z 0))
    (xyz 0 0 0).

(** A run of the engine on the two lines with the instances above. *)
Definition run_on_lines (hullMethod : string)
    (line1InBothHull line2InBothHull : option PointCloud)
    (minimalMemory : bool) :=
  HullOverlap.computeHullsAndPointsInBothHulls project_in_plane on_vertex
    whole_cloud whole_cloud_indices insertion_sort
    counters_at_zero counters_at_zero
    (plane_z0 line_a line_b hullMethod)
    line1InBothHull line2InBothHull minimalMemory.

(** ** The crossing test of PCL, and two lines that overlap under it *)

(** One edge of the polygon in the crossing test that
    [pcl::isXYPointIn2DXYPolygon] makes, from the vertex [(xold, yold)] to
    [v]; the coordinates are widened to [double]. *)
Definition crossing_edge (point : PointXYZ)
    (state : bool * (double * double)) (v : PointXYZ)
  : bool * (double * double) :=
  let '(in_poly, (xold, yold)) := state in
  let xnew := to_double (PointXYZ.x v) in
  let ynew := to_double (PointXYZ.y v) in
  let px := to_double (PointXYZ.x point) in
  let py := to_double (PointXYZ.y point) in
  let '(x1, x2, y1, y2) :=
    if gtb xnew xold then (xold, xnew, yold, ynew)
    else (xnew, xold, ynew, yold) in
  let crosses :=
    Bool.eqb (ltb xnew px) (leb px xold)
    && ltb (F64.mul (F64.sub py y1) (F64.sub x2 x1))
           (F64.mul (F64.sub y2 y1) (F64.sub px x1)) in
  (if crosses then negb in_poly else in_poly, (xnew, ynew)).

(** An instance of the polygon test: the parity of the edges crossed,
    starting from the last vertex, as PCL computes it. *)
Definition crossing_test (point : PointXYZ) (polygon : PointCloud) : bool :=
  match rev polygon with
  | [] => false
  | v :: _ =>
      fst (fold_left (crossing_edge point) polygon
             (false, (to_double (PointXYZ.x v), to_double (PointXYZ.y v))))
  end.

(** Two lines in the plane [z = 0], all of whose coordinates are negative.
    With the first point of [line_p] as origin and its last point on the
    first axis, their 2D coordinates are (0,0), (4,-8), (8,0) and (5,-2),
    (1,-12), (9,-12): the second point of [line_p] is inside the triangle
    of [line_q], and the first point of [line_q] inside that of
    [line_p]. *)
Definition line_p : PointCloud :=
  [xyz (-16) (-4) 0; xyz (-12) (-12) 0; xyz (-8) (-4) 0].
Definition line_q : PointCloud :=
  [xyz (-11) (-6) 0; xyz (-15) (-16) 0; xyz (-7) (-16) 0].

(** A run on these lines with the method "Andrew's", the counters of its
    loops starting at 0, PCL's crossing test, and the projection of points
    that lie in the plane. *)
Definition run_on_triangles
    (line1InBothHull line2InBothHull : option PointCloud)
    (minimalMemory : bool) :=
  HullOverlap.computeHullsAndPointsInBothHulls project_in_plane crossing_test
    whole_cloud whole_cloud_indices insertion_sort
    counters_at_zero counters_at_zero
    (plane_z0 line_p line_q "Andrew's")
    line1InBothHull line2InBothHull minimalMemory.

(** ** Reading the hull as a polygon *)

(** Three vertices are collinear when their cross product compares equal
    to zero. *)
Definition collinear (o a b : PointAndrews) : bool :=
  eqb (cross o a b) (F64.of_Z 0).

(** The triples of consecutive vertices of a list. *)
Fixpoint consecutive_triples (l : list PointAndrews)
  : list (PointAndrews * PointAndrews * PointAndrews) :=
  match l with
  | o :: ((a :: b :: _) as l') => (o, a, b) :: consecutive_triples l'
  | _ => []
  end.

(** The same for the list closed back to its first vertex. *)
Definition cyclic_triples (hull : list PointAndrews)
  : list (PointAndrews * PointAndrews * PointAndrews) :=
  match hull with
  | [] => []
  | _ => consecutive_triples (hull ++ firstn 2 (hull ++ hull))
  end.

Definition strictly_convex (hull : list PointAndrews) : bool :=
  forallb (fun '(o, a, b) => negb (collinear o a b)) (cyclic_triples hull).

(** The invariant of both chains, on the stack: every vertex that has two
    vertices below it was accepted by the test of [pop_while], except the
    one at position [skip] of the array. *)
Fixpoint left_turns (skip : nat) (hull : list PointAndrews) : Prop :=
  match hull with
  | b :: ((a :: o :: _) as hull') =>
      (length hull' = skip \/ not_left_turn o a b = false)
      /\ left_turns skip hull'
  | _ => True
  end.

(** ** Degenerate first lines *)

Definition nan3 : Vector3d := Vector3d.Build nan nan nan.

(** Two coordinates are the same: the same value (one point read twice), or
    equal by the [==] of C++. *)
Definition same_coordinate (u v : float) : Prop :=
  u = v \/ eqb u v = true.

Definition coincide (p q : PointXYZ) : Prop :=
  same_coordinate (PointXYZ.x p) (PointXYZ.x q)
  /\ same_coordinate (PointXYZ.y p) (PointXYZ.y q)
  /\ same_coordinate (PointXYZ.z p) (PointXYZ.z q).

Definition zero_or_nan (x : spec_float) : Prop :=
  x = S754_zero false \/ x = S754_zero true \/ x = S754_nan.

(** ** Results of example runs *)

(** What a call returned, or a default when it did not return. *)
Definition result_of {A : Type} (default : A) (r : outcome A) : A :=
  match r with
  | Returned a => a
  | _ => default
  end.

Definition no_result
  : HullOverlap.t * (N * N) * (option PointCloud * option PointCloud) :=
  (plane_z0 [] [] "", (0%N, 0%N), (None, None)).

(** The two lines in full mode with both clouds, in minimal-memory mode
    with both clouds, and in minimal-memory mode without clouds. *)
Definition full_run :=
  result_of no_result (run_on_lines "Andrew's" (Some []) (Some []) false).
Definition minimal_run :=
  result_of no_result (run_on_lines "Andrew's" (Some []) (Some []) true).
Definition minimal_index_run :=
  result_of no_result (run_on_lines "Andrew's" None None true).

(** The unit square with its first corner twice. *)
Definition square_points : list PointAndrews :=
  [pa 0 0 0; pa 1 0 1; pa 1 1 2; pa 0 1 3; pa 0 0 4].

(** ** Engines with the same inputs *)

(** Two engines hold the same lines, plane, method and alpha values. *)
Definition same_configuration (this that : HullOverlap.t) : Prop :=
  HullOverlap.line1 this = HullOverlap.line1 that
  /\ HullOverlap.line2 this = HullOverlap.line2 that
  /\ HullOverlap.a this = HullOverlap.a that
  /\ HullOverlap.b this = HullOverlap.b that
  /\ HullOverlap.c this = HullOverlap.c that
  /\ HullOverlap.d this = HullOverlap.d that
  /\ HullOverlap.hullMethod this = HullOverlap.hullMethod that
  /\ HullOverlap.alphaLine1 this = HullOverlap.alphaLine1 that
  /\ HullOverlap.alphaLine2 this = HullOverlap.alphaLine2 that
  /\ HullOverlap.coefficients this = HullOverlap.coefficients that.

(** Position [i] of a cloud holds a point that passes a test. *)
Definition inside_at (inside : PointXYZ -> bool) (cloud : PointCloud)
    (i : N) : Prop :=
  exists p, nth_error cloud (N.to_nat i) = Some p /\ inside p = true.

(** * Properties *)

(** ** Andrew's monotone chain *)

Section AndrewsProperties.

Variable sort : list PointAndrews -> list PointAndrews.

Lemma pop_while_suffix t p hull :
  exists popped, hull = popped ++ pop_while t p hull.
Proof.
  induction hull as [|a hull IH]; [exists []; reflexivity|].
  destruct hull as [|o hull]; [exists []; reflexivity|].
  cbn [pop_while].
  destruct ((t <=? length (a :: o :: hull))%nat && not_left_turn o a p).
  - destruct IH as [popped IH]. exists (a :: popped).
    cbn [app]. f_equal. exact IH.
  - exists []. reflexivity.
Qed.

Lemma pop_while_incl t p hull : incl (pop_while t p hull) hull.
Proof.
  destruct (pop_while_suffix t p hull) as [popped E].
  rewrite E at 2. apply incl_appr, incl_refl.
Qed.

Lemma left_turns_tail skip a hull :
  left_turns skip (a :: hull) -> left_turns skip hull.
Proof.
  destruct hull as [|b [|o hull]]; cbn; try tauto.
Qed.

Lemma left_turns_suffix skip popped hull :
  left_turns skip (popped ++ hull) -> left_turns skip hull.
Proof.
  induction popped as [|a popped IH]; [trivial|].
  intros H. apply IH. eapply left_turns_tail. exact H.
Qed.

Lemma pop_while_left_turns skip t p hull :
  left_turns skip hull -> left_turns skip (pop_while t p hull).
Proof.
  destruct (pop_while_suffix t p hull) as [popped E].
  intros H. rewrite E in H. eapply left_turns_suffix. exact H.
Qed.

(** Where the loop stops with two vertices left, either [k < t] or the
    candidate makes a left turn. *)
Lemma pop_while_stop t p hull a o rest :
  pop_while t p hull = a :: o :: rest ->
  (length (a :: o :: rest) < t)%nat \/ not_left_turn o a p = false.
Proof.
  induction hull as [|a' hull IH]; [discriminate|].
  destruct hull as [|o' hull]; [discriminate|].
  cbn [pop_while].
  destruct ((t <=? length (a' :: o' :: hull))%nat) eqn:Ek;
    destruct (not_left_turn o' a' p) eqn:Ec; cbn [andb].
  - exact IH.
  - intros E; injection E as -> -> ->. now right.
  - intros E; injection E as -> -> ->. left.
    apply Nat.leb_gt in Ek. exact Ek.
  - intros E; injection E as -> -> ->. now right.
Qed.

(** The loop never takes [k] below [t - 1]. *)
Lemma pop_while_length t p hull :
  (t - 1 <= length hull)%nat -> (t - 1 <= length (pop_while t p hull))%nat.
Proof.
  induction hull as [|a hull IH]; [trivial|].
  destruct hull as [|o hull]; [trivial|].
  cbn [pop_while]. intros Hk.
  destruct ((t <=? length (a :: o :: hull))%nat) eqn:Ek; cbn [andb];
    [|exact Hk].
  destruct (not_left_turn o a p); [|exact Hk].
  apply IH. apply Nat.leb_le in Ek. cbn [length] in *. lia.
Qed.

Lemma chain_step_left_turns skip t hull p :
  (t = 2 \/ (t - 1 = skip /\ t - 1 <= length hull))%nat ->
  left_turns skip hull -> left_turns skip (chain_step t hull p).
Proof.
  intros Ht H. unfold chain_step.
  pose proof (pop_while_left_turns skip t p hull H) as H'.
  destruct (pop_while t p hull) as [|a [|o rest]] eqn:E; cbn; auto.
  split; [|exact H'].
  destruct (pop_while_stop _ _ _ _ _ _ E) as [Hlt|Hc]; [|now right].
  cbn [length] in Hlt. destruct Ht as [->|[<- Hk]]; [lia|left].
  pose proof (pop_while_length t p hull Hk) as Hk'.
  rewrite E in Hk'. cbn [length] in *. lia.
Qed.

Lemma chain_left_turns skip t points : forall hull,
  (t = 2 \/ (t - 1 = skip /\ t - 1 <= length hull))%nat ->
  left_turns skip hull ->
  left_turns skip (fold_left (chain_step t) points hull).
Proof.
  induction points as [|p points IH]; intros hull Ht H; cbn; [exact H|].
  apply IH.
  - destruct Ht as [Ht|[Hs Hk]]; [now left|right]. split; [exact Hs|].
    unfold chain_step. cbn [length].
    pose proof (pop_while_length t p hull Hk). lia.
  - now apply chain_step_left_turns.
Qed.

Lemma lower_chain_left_turns skip points :
  left_turns skip (lower_chain points).
Proof.
  unfold lower_chain.
  apply (chain_left_turns skip 2 points []); [now left|exact I].
Qed.

Lemma upper_chain_left_turns points :
  left_turns (length (lower_chain points))
             (upper_chain points (lower_chain points)).
Proof.
  unfold upper_chain.
  apply chain_left_turns.
  - right. split; lia.
  - apply lower_chain_left_turns.
Qed.

(** The invariant, read on the array from its first entry. *)
Lemma left_turns_rev skip hull :
  left_turns skip hull ->
  forall j o a b,
    nth_error (rev hull) j = Some o ->
    nth_error (rev hull) (j + 1) = Some a ->
    nth_error (rev hull) (j + 2) = Some b ->
    (j + 2)%nat <> skip ->
    not_left_turn o a b = false.
Proof.
  induction hull as [|top hull IH]; intros H j o a b Ho Ha Hb Hj.
  - destruct j; discriminate.
  - cbn [rev] in Ho, Ha, Hb.
    assert (Hlen : (j + 2 < length (rev hull ++ [top]))%nat)
      by (apply nth_error_Some; congruence).
    rewrite length_app, length_rev in Hlen. cbn [length] in Hlen.
    destruct (Nat.eq_dec (j + 2) (length hull)) as [E|NE].
    + rewrite nth_error_app1 in Ho by (rewrite length_rev; lia).
      rewrite nth_error_app1 in Ha by (rewrite length_rev; lia).
      rewrite nth_error_app2 in Hb by (rewrite length_rev; lia).
      rewrite length_rev, E, Nat.sub_diag in Hb. cbn in Hb.
      injection Hb as ->.
      destruct hull as [|a' [|o' hull]]; cbn [length] in E; try lia.
      cbn [rev] in Ho, Ha.
      rewrite nth_error_app2 in Ha
        by (rewrite length_app, length_rev; cbn [length] in *; lia).
      rewrite length_app, length_rev in Ha. cbn [length] in Ha.
      replace (j + 1 - (length hull + 1))%nat with 0%nat in Ha by lia.
      cbn in Ha. injection Ha as ->.
      rewrite nth_error_app1 in Ho
        by (rewrite length_app, length_rev; cbn [length] in *; lia).
      rewrite nth_error_app2 in Ho by (rewrite length_rev; lia).
      rewrite length_rev in Ho.
      replace (j - length hull)%nat with 0%nat in Ho by lia.
      cbn in Ho. injection Ho as ->.
      cbn in H. destruct H as [[Hs|Hc] _]; [|exact Hc].
      cbn [length] in *. lia.
    + apply (IH (left_turns_tail _ _ _ H) j); trivial.
      * rewrite nth_error_app1 in Ho by (rewrite length_rev; lia). exact Ho.
      * rewrite nth_error_app1 in Ha by (rewrite length_rev; lia). exact Ha.
      * rewrite nth_error_app1 in Hb by (rewrite length_rev; lia). exact Hb.
Qed.

(** Every vertex on the stack is one of the points pushed, or was there
    before. *)
Lemma chain_incl t points : forall hull p,
  In p (fold_left (chain_step t) points hull) -> In p points \/ In p hull.
Proof.
  induction points as [|q points IH]; intros hull p H; cbn in H.
  - now right.
  - destruct (IH _ _ H) as [Hp|Hp]; [left; now right|].
    destruct Hp as [->|Hp]; [left; now left|].
    right. eapply pop_while_incl. exact Hp.
Qed.

Lemma In_removelast (A : Type) (l : list A) (x : A) :
  In x (removelast l) -> In x l.
Proof.
  induction l as [|y [|z l] IH]; cbn; [tauto|tauto|].
  intros [->|H]; [now left|right; now apply IH].
Qed.

Lemma In_tl (A : Type) (l : list A) (x : A) : In x (tl l) -> In x l.
Proof. destruct l; cbn; tauto. Qed.

Lemma AndrewsConvex_hull_incl points p :
  (forall q, In q (sort points) -> In q points) ->
  In p (fst (AndrewsConvex_hull sort points)) -> In p points.
Proof.
  intros Hsort. unfold AndrewsConvex_hull.
  destruct (length points <=? 3)%nat; cbn [fst]; [trivial|].
  intros H. apply In_rev, In_tl in H.
  apply Hsort.
  destruct (chain_incl _ _ _ _ H) as [H1|H1].
  - apply In_rev in H1. now apply In_removelast.
  - destruct (chain_incl _ _ _ _ H1) as [H2|[]]. exact H2.
Qed.

(** C8.  With at most three points, [AndrewsConvex_hull] returns the
    input itself as the hull: the same points with their multiplicity, in
    the input order; the points are left as they were. *)
Theorem AndrewsConvex_hull_at_most_three points :
  (length points <= 3)%nat ->
  AndrewsConvex_hull sort points = (points, points).
Proof.
  intros H. unfold AndrewsConvex_hull.
  apply Nat.leb_le in H. now rewrite H.
Qed.

End AndrewsProperties.

(** C8 at two points. *)
Lemma AndrewsConvex_hull_at_most_three_witness :
  AndrewsConvex_hull insertion_sort [pa 0 0 0; pa 0 0 1]
  = ([pa 0 0 0; pa 0 0 1], [pa 0 0 0; pa 0 0 1]).
Proof.
  apply (AndrewsConvex_hull_at_most_three insertion_sort).
  cbn. lia.
Defined.

(** C5 as stated fails: four points on a line give a hull of two vertices,
    and the list closed back to its first vertex has collinear triples. *)
Lemma AndrewsConvex_hull_collinear_input :
  let points := [pa 0 0 0; pa 1 0 1; pa 2 0 2; pa 3 0 3] in
  (3 < length points)%nat
  /\ fst (AndrewsConvex_hull insertion_sort points) = [pa 0 0 0; pa 3 0 3]
  /\ strictly_convex (fst (AndrewsConvex_hull insertion_sort points)) = false.
Proof.
  cbn zeta. split; [cbn; lia|]. split; vm_compute; reflexivity.
Qed.

(** ** Reads *)

Lemma at_index_lt (A : Type) (v : list A) (i : N) :
  (i < N.of_nat (length v))%N -> exists a, at_index v i = Returned a.
Proof.
  intros H. unfold at_index.
  apply N.ltb_lt in H as Hb. rewrite Hb.
  destruct (nth_error v (N.to_nat i)) as [a|] eqn:E; [now exists a|].
  apply nth_error_None in E. lia.
Qed.

Lemma at_index_nil (A : Type) (i : N) : at_index (@nil A) i = Undefined.
Proof. unfold at_index. cbn. now destruct i. Qed.

Lemma at_index_not_exited (A : Type) (v : list A) (i : N) (status : Z) :
  at_index v i <> Exited status.
Proof.
  unfold at_index.
  destruct (i <? N.of_nat (length v))%N; [|discriminate].
  destruct (nth_error v (N.to_nat i)); discriminate.
Qed.

Lemma uint64_pred_lt (n : N) : (0 < n)%N -> (uint64_pred n < n)%N.
Proof.
  intros H. unfold uint64_pred.
  destruct (N.lt_ge_cases n (2 ^ 64)) as [Hs|Hb].
  - replace (n + (2 ^ 64 - 1))%N with (n - 1 + 1 * 2 ^ 64)%N by lia.
    rewrite N.Div0.mod_add, N.mod_small; lia.
  - eapply N.lt_le_trans; [apply N.mod_lt; discriminate|exact Hb].
Qed.

Lemma uint64_pred_small (n : N) :
  (0 < n <= 2 ^ 64)%N -> uint64_pred n = (n - 1)%N.
Proof.
  intros H. unfold uint64_pred.
  replace (n + (2 ^ 64 - 1))%N with (n - 1 + 1 * 2 ^ 64)%N by lia.
  rewrite N.Div0.mod_add, N.mod_small; lia.
Qed.

Lemma nth_error_last (A : Type) (l : list A) (d : A) :
  l <> [] -> nth_error l (length l - 1) = Some (last l d).
Proof.
  induction l as [|x [|y l] IH]; intros H; [congruence|reflexivity|].
  change (last (x :: y :: l) d) with (last (y :: l) d).
  rewrite <- IH by discriminate.
  replace (length (x :: y :: l) - 1)%nat with (S (length (y :: l) - 1))
    by (cbn [length]; lia).
  reflexivity.
Qed.

Lemma at_index_last (A : Type) (l : list A) (d : A) :
  l <> [] -> (N.of_nat (length l) <= 2 ^ 64)%N ->
  at_index l (uint64_pred (N.of_nat (length l))) = Returned (last l d).
Proof.
  intros Hne Hsz.
  assert (Hpos : (0 < N.of_nat (length l))%N)
    by (destruct l; [congruence|cbn [length]; lia]).
  rewrite uint64_pred_small by lia.
  unfold at_index.
  replace (N.of_nat (length l) - 1 <? N.of_nat (length l))%N with true
    by (symmetry; apply N.ltb_lt; lia).
  replace (N.to_nat (N.of_nat (length l) - 1)) with (length l - 1)%nat by lia.
  now rewrite (nth_error_last _ l d Hne).
Qed.

(** ** Arithmetic on coinciding coordinates *)

Lemma SFcompare_finite_Eq s1 m1 e1 s2 m2 e2 :
  SFcompare (S754_finite s1 m1 e1) (S754_finite s2 m2 e2) = Some Eq ->
  s1 = s2 /\ m1 = m2 /\ e1 = e2.
Proof.
  cbn. destruct s1, s2; try discriminate;
    destruct (Z.compare_spec e1 e2) as [->| |]; try discriminate;
    intros H; injection H as H;
    [apply CompOpp_iff in H; cbn in H|];
    apply Pos.compare_eq in H; subst; auto.
Qed.

Lemma sub_same_coordinate (u v : float) :
  same_coordinate u v -> zero_or_nan (F32.sub u v).
Proof.
  unfold same_coordinate, zero_or_nan, F32.sub, eqb, SFeqb.
  intros [->|H].
  - destruct v as [[|]|[|]| |s m e]; cbn; auto.
    rewrite Z.sub_diag. cbn. auto.
  - destruct u as [[|]|[|]| |s1 m1 e1], v as [[|]|[|]| |s2 m2 e2];
      try (cbn in H; discriminate H); cbn; auto;
      try (destruct s2; cbn in H; discriminate H);
      try (destruct s1; cbn in H; discriminate H).
    destruct (SFcompare (S754_finite s1 m1 e1) (S754_finite s2 m2 e2))
      as [[| |]|] eqn:E; try discriminate.
    apply SFcompare_finite_Eq in E as (-> & -> & ->).
    rewrite Z.sub_diag. cbn. auto.
Qed.

Lemma to_double_zero_or_nan (x : float) :
  zero_or_nan x -> zero_or_nan (to_double x).
Proof. intros [->|[->| ->]]; cbn; unfold zero_or_nan; auto. Qed.

Lemma normalize_zero_or_nan (x y z : double) :
  zero_or_nan x -> zero_or_nan y -> zero_or_nan z ->
  Vector3d.div (Vector3d.Build x y z) (Vector3d.norm (Vector3d.Build x y z))
  = nan3.
Proof.
  intros [->|[->| ->]] [->|[->| ->]] [->|[->| ->]]; reflexivity.
Qed.

Lemma mul_nan_r (x : double) : F64.mul x nan = nan.
Proof. now destruct x. Qed.

Lemma cross_nan3 (n : Vector3d) : Vector3d.cross n nan3 = nan3.
Proof.
  destruct n as [n0 n1 n2]. unfold Vector3d.cross, nan3. cbn.
  now rewrite !mul_nan_r.
Qed.

(** The read PCL's polygon test makes before its loop. *)
Lemma last_vertex_returns (polygon : PointCloud) :
  polygon <> [] -> exists v, HullOverlap.last_vertex polygon = Returned v.
Proof.
  intros Hne. unfold HullOverlap.last_vertex.
  apply at_index_lt, uint64_pred_lt.
  destruct polygon; [congruence|cbn [length]; lia].
Qed.

(** ** The engine *)

Section EngineProperties.

Variable ProjectInliers_filter : list float -> PointCloud -> PointCloud.
Variable isXYPointIn2DXYPolygon : PointXYZ -> PointCloud -> bool.
Variable ConcaveHull_reconstruct : bool -> double -> PointCloud -> PointCloud.
Variable ConcaveHull_getHullPointIndices : double -> PointCloud -> list Z.
Variable sort : list PointAndrews -> list PointAndrews.

Local Abbreviation computeHullsAndPointsInBothHulls :=
  (HullOverlap.computeHullsAndPointsInBothHulls ProjectInliers_filter
     isXYPointIn2DXYPolygon ConcaveHull_reconstruct
     ConcaveHull_getHullPointIndices sort).

Local Abbreviation computeBothHulls :=
  (HullOverlap.computeBothHulls ConcaveHull_reconstruct
     ConcaveHull_getHullPointIndices sort).

(** *** The three classification loops agree *)

Lemma findPointsInHullOnlyPoints_loop_spec lineOriginal hull cloudIn :
  forall count,
    HullOverlap.findPointsInHullOnlyPoints_loop isXYPointIn2DXYPolygon
      lineOriginal hull count cloudIn
    = (r <- HullOverlap.findPointsInHull_loop isXYPointIn2DXYPolygon
              lineOriginal hull count cloudIn ;;
       Returned (fst r)).
Proof.
  induction cloudIn as [|p rest IH]; intros count; cbn; [reflexivity|].
  destruct (isXYPointIn2DXYPolygon p hull); [|apply IH].
  destruct (at_index lineOriginal (N.of_nat count)); cbn; trivial.
  rewrite IH.
  destruct (HullOverlap.findPointsInHull_loop _ _ _ _ _) as [[out idx]| |];
    reflexivity.
Qed.

Lemma findPointsInHullOnlyPoints_spec lineOriginal cloudIn cloudOut hull :
  HullOverlap.findPointsInHullOnlyPoints isXYPointIn2DXYPolygon
    lineOriginal cloudIn cloudOut hull
  = (r <- HullOverlap.findPointsInHull isXYPointIn2DXYPolygon
            lineOriginal cloudIn cloudOut hull ;;
     Returned (fst r)).
Proof.
  unfold HullOverlap.findPointsInHullOnlyPoints, HullOverlap.findPointsInHull.
  destruct cloudOut as [out|]; cbn [bind deref]; trivial.
  destruct cloudIn as [[|p rest]|]; cbn [bind deref]; trivial.
  destruct hull as [vertices|]; cbn [bind deref]; trivial.
  destruct (HullOverlap.last_vertex vertices); cbn [bind]; trivial.
  apply (findPointsInHullOnlyPoints_loop_spec _ _ (p :: rest)).
Qed.

(** The indices [findPointsInHull] records are those
    [findPointsInHullOnlyPointIndices] finds. *)
Lemma findPointsInHull_loop_indices lineOriginal hull cloudIn :
  forall count out idx,
    HullOverlap.findPointsInHull_loop isXYPointIn2DXYPolygon
      lineOriginal hull count cloudIn = Returned (out, idx) ->
    idx = HullOverlap.findPointsInHullOnlyPointIndices_loop
            isXYPointIn2DXYPolygon hull count cloudIn
    /\ length out = length idx.
Proof.
  induction cloudIn as [|p rest IH]; intros count out idx; cbn.
  - intros E; injection E as <- <-. now split.
  - destruct (isXYPointIn2DXYPolygon p hull); [|apply IH].
    destruct (at_index lineOriginal (N.of_nat count)); cbn; try discriminate.
    destruct (HullOverlap.findPointsInHull_loop _ _ _ _ _)
      as [[out' idx']| |] eqn:E'; cbn; try discriminate.
    intros E; injection E as <- <-.
    destruct (IH _ _ _ E') as [-> Hl]. cbn. now rewrite Hl.
Qed.

(** *** The hull vertices do not depend on the mode *)

Lemma computeBothHulls_vertices u1 u2 u1' u2' this l1d l2d :
  ((HullOverlap.hullMethod this = "PCL ConcaveHull")%string ->
   forall alpha cloud,
     ConcaveHull_reconstruct true alpha cloud
     = ConcaveHull_reconstruct false alpha cloud) ->
  ((HullOverlap.hullMethod this = "Andrew's")%string ->
   same_vertex_counters u1 u1' /\ same_vertex_counters u2 u2') ->
  vertices_of (computeBothHulls u1 u2 this l1d l2d true)
  = vertices_of (computeBothHulls u1' u2' this l1d l2d false).
Proof.
  intros Hkeep Hstart. unfold HullOverlap.computeBothHulls.
  destruct (String.eqb_spec (HullOverlap.hullMethod this) "PCL ConcaveHull")
    as [E|NE].
  - specialize (Hkeep E).
    unfold HullOverlap.computeVerticesOfConcaveHull. cbn [negb].
    destruct (HullOverlap.hull1Vertices this); cbn; trivial.
    destruct l1d; cbn; trivial.
    destruct (HullOverlap.hull2Vertices this); cbn; trivial.
    destruct l2d; cbn; trivial.
    now rewrite !Hkeep.
  - destruct (String.eqb_spec (HullOverlap.hullMethod this) "Andrew's")
      as [E|_]; trivial.
    destruct (Hstart E) as [[P1 V1] [P2 V2]].
    unfold HullOverlap.computeVerticesOfHullAndrews. cbn [negb].
    rewrite P1, V1, P2, V2.
    destruct l1d; cbn; trivial.
    destruct (HullOverlap.hull1Vertices this); cbn; trivial.
    destruct l2d; cbn; trivial.
    destruct (HullOverlap.hull2Vertices this); cbn; trivial.
Qed.

(** *** When the stages return *)

Lemma computeTwoVectorsAndRefPoint_returns a b c (points : PointCloud) :
  points <> [] ->
  exists basis,
    HullOverlap.computeTwoVectorsAndRefPoint a b c (Some points)
    = Returned basis.
Proof.
  intros Hne. unfold HullOverlap.computeTwoVectorsAndRefPoint.
  assert (Hpos : (0 < N.of_nat (length points))%N)
    by (destruct points; [congruence|cbn [length]; lia]).
  destruct (at_index_lt _ points 0 Hpos) as [first E0].
  destruct (at_index_lt _ points _ (uint64_pred_lt _ Hpos)) as [last El].
  cbn [deref bind]. rewrite E0. cbn [bind]. rewrite El. cbn [bind].
  eexists. reflexivity.
Qed.

Lemma computeBothHulls_returns u1 u2 this (l1d l2d : PointCloud) minimalMemory :
  HullOverlap.valid_method (HullOverlap.hullMethod this) = true ->
  HullOverlap.hull1Vertices this <> None ->
  HullOverlap.hull2Vertices this <> None ->
  exists hulls,
    computeBothHulls u1 u2 this (Some l1d) (Some l2d) minimalMemory
    = Returned hulls.
Proof.
  unfold HullOverlap.valid_method, HullOverlap.computeBothHulls.
  intros Hm H1 H2.
  destruct (HullOverlap.hull1Vertices this) as [hv1|] eqn:E1; [|congruence].
  destruct (HullOverlap.hull2Vertices this) as [hv2|] eqn:E2; [|congruence].
  destruct (HullOverlap.hullMethod this =? "PCL ConcaveHull")%string.
  - unfold HullOverlap.computeVerticesOfConcaveHull. cbn [deref bind].
    eexists. reflexivity.
  - cbn [orb] in Hm. rewrite Hm.
    unfold HullOverlap.computeVerticesOfHullAndrews. cbn [deref bind].
    eexists. reflexivity.
Qed.

(** *** A degenerate first line *)

(** C3, as amended.  When the first line has one point, or more with the
    first and the last projected points coinciding,
    [computeTwoVectorsAndRefPoint] signals nothing: it returns, with every
    coefficient of [vector1] and of [vector2] NaN, whatever the plane. *)
Theorem computeTwoVectorsAndRefPoint_degenerate
    a b c (points : PointCloud) first :
  hd_error points = Some first ->
  (N.of_nat (length points) <= 2 ^ 64)%N ->
  coincide (last points first) first ->
  HullOverlap.computeTwoVectorsAndRefPoint a b c (Some points)
  = Returned (first, nan3, nan3).
Proof.
  intros Hhd Hsz (Hx & Hy & Hz).
  assert (Hne : points <> []) by (destruct points; discriminate).
  unfold HullOverlap.computeTwoVectorsAndRefPoint. cbn [deref bind].
  assert (E0 : at_index points 0 = Returned first)
    by (destruct points; [discriminate|]; injection Hhd as ->; reflexivity).
  rewrite E0. cbn [bind].
  rewrite (at_index_last _ points first Hne Hsz). cbn [bind].
  rewrite normalize_zero_or_nan
    by (apply to_double_zero_or_nan, sub_same_coordinate; assumption).
  rewrite cross_nan3. reflexivity.
Qed.

(** *** An invalid method *)

(** C4, as amended.  With a method that is neither "PCL ConcaveHull" nor
    "Andrew's", the constructor ends the process with [exit(1)]: the
    caller gets no engine and no error value, and no method is assumed.  A
    call on an engine that holds such a method does not return either: it
    ends in [exit(1)] after the two projections, unless a read went wrong
    before. *)
Theorem invalid_method_exits
    line1In line2In a b c d hullMethod alphaLine1 alphaLine2 :
  hullMethod <> "PCL ConcaveHull"%string ->
  hullMethod <> "Andrew's"%string ->
  HullOverlap.new line1In line2In a b c d hullMethod alphaLine1 alphaLine2
  = Exited 1
  /\ forall u1 u2 this line1InBothHull line2InBothHull minimalMemory,
      HullOverlap.hullMethod this = hullMethod ->
      computeHullsAndPointsInBothHulls u1 u2 this
        line1InBothHull line2InBothHull minimalMemory = Exited 1
      \/ computeHullsAndPointsInBothHulls u1 u2 this
           line1InBothHull line2InBothHull minimalMemory = Undefined.
Proof.
  intros H1 H2.
  apply String.eqb_neq in H1 as E1. apply String.eqb_neq in H2 as E2.
  split.
  - unfold HullOverlap.new. now rewrite E1, E2.
  - intros u1 u2 this o1 o2 mm Hm.
    unfold HullOverlap.computeHullsAndPointsInBothHulls,
      HullOverlap.createCloudFromProjectionInPlane,
      HullOverlap.createCloudInPlane2D,
      HullOverlap.computeTwoVectorsAndRefPoint,
      HullOverlap.computeBothHulls.
    rewrite Hm, E1, E2.
    destruct (HullOverlap.line1InPlane this); cbn [deref bind]; auto.
    destruct (at_index _ 0) eqn:E0; cbn [bind]; auto;
      [|now apply at_index_not_exited in E0].
    destruct (at_index _ (uint64_pred _)) eqn:El; cbn [bind]; auto;
      [|now apply at_index_not_exited in El].
    destruct (HullOverlap.line1InPlane2D this); cbn [deref bind]; auto.
    destruct (HullOverlap.line2InPlane this); cbn [deref bind]; auto.
    destruct (HullOverlap.line2InPlane2D this); cbn [deref bind]; auto.
Qed.

(** *** An empty first line *)

(** C6, the failing case.  When the first line is empty (and PCL projects
    the empty cloud to the empty cloud), [computeTwoVectorsAndRefPoint]
    reads [line1InPlane->points[0]] of an empty vector: the call does not
    return. *)
Theorem empty_line1_read_out_of_range
    u1 u2 this line1InBothHull line2InBothHull minimalMemory :
  HullOverlap.line1 this = [] ->
  ProjectInliers_filter (HullOverlap.coefficients this) [] = [] ->
  computeHullsAndPointsInBothHulls u1 u2 this
    line1InBothHull line2InBothHull minimalMemory
  = Undefined.
Proof.
  intros Hl Hp.
  unfold HullOverlap.computeHullsAndPointsInBothHulls,
    HullOverlap.createCloudFromProjectionInPlane.
  rewrite Hl, Hp.
  destruct (HullOverlap.line1InPlane this); reflexivity.
Qed.

(** The reads of [lineOriginal] stay in range when the original line is as
    long as the cloud that is classified. *)
Lemma findPointsInHull_loop_returns lineOriginal hull cloudIn :
  forall count,
    (count + length cloudIn <= length lineOriginal)%nat ->
    exists r,
      HullOverlap.findPointsInHull_loop isXYPointIn2DXYPolygon
        lineOriginal hull count cloudIn = Returned r.
Proof.
  induction cloudIn as [|p rest IH]; intros count Hlen; cbn.
  - eexists. reflexivity.
  - cbn [length] in Hlen.
    destruct (IH (S count)) as [[out idx] E]; [lia|].
    destruct (isXYPointIn2DXYPolygon p hull); [|now exists (out, idx)].
    destruct (at_index_lt _ lineOriginal (N.of_nat count)) as [q ->]; [lia|].
    cbn [bind]. rewrite E. cbn [bind]. eexists. reflexivity.
Qed.

Lemma findPointsInHull_returns lineOriginal (cloud out hull : PointCloud) :
  (length cloud <= length lineOriginal)%nat ->
  hull <> [] ->
  exists r,
    HullOverlap.findPointsInHull isXYPointIn2DXYPolygon
      lineOriginal (Some cloud) (Some out) (Some hull) = Returned r.
Proof.
  intros Hlen Hne. unfold HullOverlap.findPointsInHull. cbn [deref bind].
  destruct cloud as [|p l] eqn:E; [eexists; reflexivity|].
  destruct (last_vertex_returns hull Hne) as [v ->]. cbn [bind].
  apply findPointsInHull_loop_returns. cbn [Nat.add]. exact Hlen.
Qed.

(** *** Mode equivalence *)

(** The part of C1 that holds.  On the same engine, with the same caller's
    clouds, the call with [minimalMemory = true] gives the caller the same
    pair of counts and the same overlap points per line as the call with
    [minimalMemory = false], and it ends as the other does when that one
    does not return, under one condition per method.  With "PCL
    ConcaveHull": the vertices PCL reconstructs are the same with and
    without [setKeepInformation(true)], the one thing the mode changes in
    what is asked of it.  With "Andrew's": in each of the two calls of
    [computeVerticesOfHullAndrews] the two runs start the counter of the
    loop over the cloud at the same value, and the counter of the loop
    that pushes the vertices too.  The runs have their own starting values
    ([u1], [u2] and [u1'], [u2']); the counter of the loop over the
    indices is free. *)
Theorem minimalMemory_same_counts_and_points
    u1 u2 u1' u2' this line1InBothHull line2InBothHull :
  ((HullOverlap.hullMethod this = "PCL ConcaveHull")%string ->
   forall alpha cloud,
     ConcaveHull_reconstruct true alpha cloud
     = ConcaveHull_reconstruct false alpha cloud) ->
  ((HullOverlap.hullMethod this = "Andrew's")%string ->
   same_vertex_counters u1 u1' /\ same_vertex_counters u2 u2') ->
  observed (computeHullsAndPointsInBothHulls u1 u2 this
              line1InBothHull line2InBothHull true)
  = observed (computeHullsAndPointsInBothHulls u1' u2' this
                line1InBothHull line2InBothHull false).
Proof.
  intros Hkeep Hstart. unfold HullOverlap.computeHullsAndPointsInBothHulls.
  destruct (HullOverlap.createCloudFromProjectionInPlane _ _ (HullOverlap.line1 this) _)
    as [l1p| |]; cbn [bind]; trivial.
  destruct (HullOverlap.computeTwoVectorsAndRefPoint _ _ _ _)
    as [[[ref v1] v2]| |]; cbn [bind]; trivial.
  destruct (HullOverlap.createCloudInPlane2D _ _ _ (Some l1p) _)
    as [l1d| |]; cbn [bind]; trivial.
  destruct (HullOverlap.createCloudFromProjectionInPlane _ _ (HullOverlap.line2 this) _)
    as [l2p| |]; cbn [bind]; trivial.
  destruct (HullOverlap.createCloudInPlane2D _ _ _ (Some l2p) _)
    as [l2d| |]; cbn [bind]; trivial.
  pose proof (computeBothHulls_vertices u1 u2 u1' u2' this
                (Some l1d) (Some l2d) Hkeep Hstart) as Hv.
  destruct (HullOverlap.computeBothHulls _ _ _ _ _ _ _ _ true)
    as [[[h1 hi1] [h2 hi2]]| |];
    destruct (HullOverlap.computeBothHulls _ _ _ _ _ _ _ _ false)
    as [[[h1' hi1'] [h2' hi2']]| |];
    cbn in Hv; try discriminate;
    [|injection Hv as ->; reflexivity|reflexivity].
  injection Hv as <- <-. cbn [bind].
  destruct line1InBothHull as [c1|], line2InBothHull as [c2|];
    cbn [HullOverlap.cleared].
  - rewrite !findPointsInHullOnlyPoints_spec.
    destruct (HullOverlap.findPointsInHull _ (HullOverlap.line1 this) _ _ _)
      as [[out1 oi1]| |]; cbn [bind fst]; trivial.
    destruct (HullOverlap.findPointsInHull _ (HullOverlap.line2 this) _ _ _)
      as [[out2 oi2]| |]; cbn [bind fst]; trivial.
  - destruct (HullOverlap.findPointsInHullOnlyPointIndices _ (Some l1d) _);
      cbn [bind]; trivial.
    destruct (HullOverlap.findPointsInHullOnlyPointIndices _ (Some l2d) _);
      cbn [bind]; trivial.
  - destruct (HullOverlap.findPointsInHullOnlyPointIndices _ (Some l1d) _);
      cbn [bind]; trivial.
    destruct (HullOverlap.findPointsInHullOnlyPointIndices _ (Some l2d) _);
      cbn [bind]; trivial.
  - destruct (HullOverlap.findPointsInHullOnlyPointIndices _ (Some l1d) _);
      cbn [bind]; trivial.
    destruct (HullOverlap.findPointsInHullOnlyPointIndices _ (Some l2d) _);
      cbn [bind]; trivial.
Qed.

End EngineProperties.

(** ** The hull of a line, with its indices *)

Lemma In_skipn (A : Type) (n : nat) (l : list A) (x : A) :
  In x (skipn n l) -> In x l.
Proof.
  intros H. rewrite <- (firstn_skipn n l). apply in_or_app. now right.
Qed.

Lemma In_combine_seq (A : Type) (v : list A) : forall s i p,
  In (i, p) (combine (map N.of_nat (seq s (length v))) v) ->
  exists k, i = N.of_nat (s + k) /\ nth_error v k = Some p.
Proof.
  induction v as [|q v IH]; intros s i p H; cbn in H; [contradiction|].
  destruct H as [E|H].
  - injection E as <- <-. exists 0%nat. now rewrite Nat.add_0_r.
  - destruct (IH _ _ _ H) as (k & -> & Hk).
    exists (S k). split; [f_equal; lia|exact Hk].
Qed.

Lemma visited_from_nil (A : Type) (c : N) : visited_from c (@nil A) = [].
Proof. unfold visited_from. cbn. apply skipn_nil. Qed.

Lemma visited_from_In (A : Type) (c : N) (v : list A) (i : N) (p : A) :
  In (i, p) (visited_from c v) -> nth_error v (N.to_nat i) = Some p.
Proof.
  intros H. apply In_skipn, In_combine_seq in H as (k & -> & Hk).
  now rewrite Nat.add_0_l, Nat2N.id.
Qed.

Lemma to_int_small (n : N) : (n < 2 ^ 31)%N -> to_int n = Z.of_N n.
Proof.
  intros H. unfold to_int.
  rewrite Z.mod_small; lia.
Qed.

Lemma Forall2_map_same (A B C : Type) (R : B -> C -> Prop)
    (f : A -> B) (g : A -> C) (l : list A) :
  (forall x, In x l -> R (f x) (g x)) -> Forall2 R (map f l) (map g l).
Proof.
  induction l as [|x l IH]; intros H; cbn; constructor.
  - apply H. now left.
  - apply IH. intros y Hy. apply H. now right.
Qed.

(** Had the counters of the second and third loops the same starting
    value (as with [count = 0] in both), the index list would be parallel to
    the vertex list and every vertex would be the point of the input at its
    index. *)
Lemma computeVerticesOfHullAndrews_traceable
    sort u (cloud : PointCloud) hullVertices hullPointIndices vertices indices :
  (forall l q, In q (sort l) -> In q l) ->
  (N.of_nat (length cloud) <= 2 ^ 31)%N ->
  HullOverlap.count_vertices u = HullOverlap.count_indices u ->
  HullOverlap.computeVerticesOfHullAndrews sort u (Some cloud)
    (Some hullVertices) hullPointIndices true
  = Returned (vertices, indices) ->
  Forall2 (fun v i =>
             exists p, 0 <= i /\ nth_error cloud (Z.to_nat i) = Some p
                       /\ PointXYZ.x v = PointXYZ.x p
                       /\ PointXYZ.y v = PointXYZ.y p)
          vertices indices.
Proof.
  intros Hsort Hsz Hc. unfold HullOverlap.computeVerticesOfHullAndrews.
  cbn [deref bind]. rewrite Hc. intros E. injection E as <- <-.
  apply Forall2_map_same. intros [k h] Hh.
  apply visited_from_In, nth_error_In in Hh.
  apply AndrewsConvex_hull_incl in Hh; [|apply Hsort].
  apply in_map_iff in Hh as ([count p] & <- & Hp).
  apply visited_from_In in Hp.
  assert (Hlt : (N.to_nat count < length cloud)%nat)
    by (apply nth_error_Some; congruence).
  exists p. cbn [PointAndrews.index PointAndrews.x PointAndrews.y PointXYZ.x PointXYZ.y].
  rewrite to_int_small by lia.
  replace (Z.to_nat (Z.of_N count)) with (N.to_nat count) by lia.
  repeat split; trivial. lia.
Qed.

(** C2, the failing case.  With three points, the counter of the loop that
    copies the vertices starting at 0 and the counter of the loop that
    records the indices starting at 1, the three vertices come with two
    indices: the lists are not parallel, and the first vertex, (0, 0), is
    paired with index 1, where the input has (1, 0). *)
Theorem computeVerticesOfHullAndrews_uninitialised_counters sort :
  HullOverlap.computeVerticesOfHullAndrews sort
    (HullOverlap.Indeterminate 0 0 1)
    (Some [xyz 0 0 0; xyz 1 0 0; xyz 0 1 0]) (Some []) [] true
  = Returned ([xyz 0 0 0; xyz 1 0 0; xyz 0 1 0], [1; 2]).
Proof. reflexivity. Qed.

(** ** The line-scoped accessors *)

(** C9, as amended.  For a line number outside 0 and 1, the four pointer
    accessors return [nullptr] and [getNbPointsInOverlap] returns 0; none
    returns the data of a line. *)
Theorem accessors_invalid_line this lineNumber :
  lineNumber < 0 \/ 1 < lineNumber ->
  HullOverlap.getConstPtrlineInBothHullPointIndices this lineNumber = None
  /\ HullOverlap.getConstPtrlineInPlane2D this lineNumber = None
  /\ HullOverlap.getConstPtrlineInPlane3D this lineNumber = None
  /\ HullOverlap.getConstPtrVerticesIndices this lineNumber = None
  /\ HullOverlap.getNbPointsInOverlap this lineNumber = 0%N.
Proof.
  intros H.
  assert (E : HullOverlap.invalid_line lineNumber = true).
  { unfold HullOverlap.invalid_line. apply orb_true_iff.
    destruct H; [left; now apply Z.ltb_lt|right; now apply Z.gtb_lt]. }
  unfold HullOverlap.getConstPtrlineInBothHullPointIndices,
    HullOverlap.getConstPtrlineInPlane2D, HullOverlap.getConstPtrlineInPlane3D,
    HullOverlap.getConstPtrVerticesIndices, HullOverlap.getNbPointsInOverlap.
  rewrite E. repeat split.
Qed.

(** C9 at line number 2. *)
Lemma accessors_invalid_line_witness :
  HullOverlap.getConstPtrlineInBothHullPointIndices overlap_below_axes 2 = None
  /\ HullOverlap.getConstPtrlineInPlane2D overlap_below_axes 2 = None
  /\ HullOverlap.getConstPtrlineInPlane3D overlap_below_axes 2 = None
  /\ HullOverlap.getConstPtrVerticesIndices overlap_below_axes 2 = None
  /\ HullOverlap.getNbPointsInOverlap overlap_below_axes 2 = 0%N.
Proof.
  apply (accessors_invalid_line overlap_below_axes 2). right. lia.
Defined.

(** C9 as stated fails for [getNbPointsInOverlap]: on an engine that has
    found no overlap, the answer for line number 2 is the count of line
    number 0, so the caller cannot tell the rejection from an answer. *)
Lemma getNbPointsInOverlap_invalid_line_is_a_count :
  let this := plane_z0 line_a line_b "Andrew's" in
  HullOverlap.getNbPointsInOverlap this 2 = 0%N
  /\ HullOverlap.getNbPointsInOverlap this 2
     = HullOverlap.getNbPointsInOverlap this 0.
Proof. split; reflexivity. Qed.

(** ** The bounding boxes *)

(** The part of C7 that holds: without overlap in one of the lines, both
    queries answer [false] and leave [minPt] and [maxPt] as they are. *)
Lemma getMinMaxPointsInOverlapPlane_without_overlap this minPt maxPt :
  HullOverlap.line1InBothHullPointIndices this = []
  \/ HullOverlap.line2InBothHullPointIndices this = [] ->
  HullOverlap.getMinMaxPointsInOverlapPlane2D this minPt maxPt
  = Returned (false, minPt, maxPt)
  /\ HullOverlap.getMinMaxPointsInOverlapPlane3D this minPt maxPt
     = Returned (false, minPt, maxPt).
Proof.
  unfold HullOverlap.getMinMaxPointsInOverlapPlane2D,
    HullOverlap.getMinMaxPointsInOverlapPlane3D.
  intros [-> | ->]; cbn [length Nat.ltb Nat.leb andb];
    rewrite ?andb_false_r; now split.
Qed.

(** C7, the failing case.  A run in full mode on [line_p] and [line_q],
    two triangles below both axes of the plane [z = 0], with the crossing
    test of PCL.  The call returns the counts (1, 1): the overlap is the
    point (-12, -12, 0) of the first line, at (4, -8) in the 2D frame, and
    the point (-11, -6, 0) of the second, at (5, -2) in the 2D frame.  Both
    queries answer [true] with the right minimum.  The 2D maximum comes
    back as (5, 0) where the two points have (5, -2), and the 3D maximum
    as (0, 0, 0) where they have (-11, -6, 0): the maxima start from
    [std::numeric_limits<double>::min()], the smallest positive double,
    which no negative coordinate exceeds and which narrows to 0. *)
Theorem getMinMaxPointsInOverlap_negative_coordinates :
  exists this',
    run_on_triangles (Some []) (Some []) false
    = Returned (this', (1%N, 1%N),
                (Some [xyz (-12) (-12) 0], Some [xyz (-11) (-6) 0]))
    /\ HullOverlap.line1InPlane this' = Some line_p
    /\ HullOverlap.line2InPlane this' = Some line_q
    /\ HullOverlap.line1InPlane2D this'
       = Some [xyz 0 0 0; xyz 4 (-8) 0; xyz 8 0 0]
    /\ HullOverlap.line2InPlane2D this'
       = Some [xyz 5 (-2) 0; xyz 1 (-12) 0; xyz 9 (-12) 0]
    /\ HullOverlap.line1InBothHullPointIndices this' = [1%N]
    /\ HullOverlap.line2InBothHullPointIndices this' = [0%N]
    /\ HullOverlap.getMinMaxPointsInOverlapPlane2D this'
         (xyz 9 9 9) (xyz 9 9 9)
       = Returned (true, xyz 4 (-8) 0, xyz 5 0 0)
    /\ HullOverlap.getMinMaxPointsInOverlapPlane3D this'
         (xyz 9 9 9) (xyz 9 9 9)
       = Returned (true, xyz (-12) (-12) 0, xyz 0 0 0).
Proof.
  exists (fst (fst (result_of no_result
                      (run_on_triangles (Some []) (Some []) false)))).
  split; [vm_compute; reflexivity|].
  split; [vm_compute; reflexivity|].
  split; [vm_compute; reflexivity|].
  split; [vm_compute; reflexivity|].
  split; [vm_compute; reflexivity|].
  split; [vm_compute; reflexivity|].
  split; [vm_compute; reflexivity|].
  split; vm_compute; reflexivity.
Qed.

(** ** The claims at concrete inputs *)

(** The two modes on the two triangles, with the method "Andrew's" and the
    crossing test of PCL.  In both runs the counter of the loop over the
    cloud and that of the loop over the vertices start at 0; the counter of
    the loop over the indices starts at 0 in the run in minimal-memory
    mode (which does not run that loop) and at 2 in the run in full mode. *)
Lemma minimalMemory_same_counts_and_points_witness :
  observed (run_on_triangles (Some []) (Some []) true)
  = observed
      (HullOverlap.computeHullsAndPointsInBothHulls project_in_plane
         crossing_test whole_cloud whole_cloud_indices insertion_sort
         (HullOverlap.Indeterminate 0 0 2) (HullOverlap.Indeterminate 0 0 2)
         (plane_z0 line_p line_q "Andrew's") (Some []) (Some []) false).
Proof.
  apply (minimalMemory_same_counts_and_points project_in_plane crossing_test
           whole_cloud whole_cloud_indices insertion_sort
           counters_at_zero counters_at_zero
           (HullOverlap.Indeterminate 0 0 2) (HullOverlap.Indeterminate 0 0 2)
           (plane_z0 line_p line_q "Andrew's") (Some []) (Some [])).
  - intros H. vm_compute in H. discriminate H.
  - intros _. vm_compute. repeat split.
Defined.

(** C1, the failing case.  Same lines, same plane, same method, same
    caller's clouds, and the two modes give different counts and points.
    The method is "Andrew's", the lines are the two triangles, the polygon
    test is the crossing test of PCL.  The first loop of
    [computeVerticesOfHullAndrews] is written
    [for ( uint64_t count; count < cloudIn->size(); count++ )]: in the run
    in minimal-memory mode its counter starts at 0 in both calls, in the
    run in full mode at 1, so that the first point of each line is left
    out of its hull.  The first run returns one point per line, the second
    none. *)
Theorem minimalMemory_modes_differ :
  observed (run_on_triangles (Some []) (Some []) true)
  = Returned ((1%N, 1%N),
              (Some [xyz (-12) (-12) 0], Some [xyz (-11) (-6) 0]))
  /\ observed
       (HullOverlap.computeHullsAndPointsInBothHulls project_in_plane
          crossing_test whole_cloud whole_cloud_indices insertion_sort
          (HullOverlap.Indeterminate 1 0 0) (HullOverlap.Indeterminate 1 0 0)
          (plane_z0 line_p line_q "Andrew's") (Some []) (Some []) false)
     = Returned ((0%N, 0%N), (@Some PointCloud [], @Some PointCloud []))
  /\ observed (run_on_triangles (Some []) (Some []) true)
     <> observed
          (HullOverlap.computeHullsAndPointsInBothHulls project_in_plane
             crossing_test whole_cloud whole_cloud_indices insertion_sort
             (HullOverlap.Indeterminate 1 0 0)
             (HullOverlap.Indeterminate 1 0 0)
             (plane_z0 line_p line_q "Andrew's") (Some []) (Some []) false).
Proof.
  split; [vm_compute; reflexivity|].
  split; [vm_compute; reflexivity|].
  vm_compute. discriminate.
Qed.

(** C6, the failing case: an empty first line with [line_b]. *)
Lemma empty_line1_read_out_of_range_witness :
  HullOverlap.computeHullsAndPointsInBothHulls project_in_plane on_vertex
    whole_cloud whole_cloud_indices insertion_sort
    counters_at_zero counters_at_zero
    (plane_z0 [] line_b "Andrew's") (Some []) (Some []) false
  = Undefined.
Proof.
  apply (empty_line1_read_out_of_range project_in_plane on_vertex
           whole_cloud whole_cloud_indices insertion_sort).
  - reflexivity.
  - reflexivity.
Defined.

(** C3 as amended, on a first line of one point. *)
Lemma computeTwoVectorsAndRefPoint_degenerate_witness :
  HullOverlap.computeTwoVectorsAndRefPoint
    (F64.of_Z 0) (F64.of_Z 0) (F64.of_Z 1) (Some [xyz 1 2 0])
  = Returned (xyz 1 2 0, nan3, nan3).
Proof.
  apply (computeTwoVectorsAndRefPoint_degenerate
           (F64.of_Z 0) (F64.of_Z 0) (F64.of_Z 1) [xyz 1 2 0] (xyz 1 2 0)).
  - reflexivity.
  - cbn. lia.
  - repeat split; now left.
Defined.

(** C3 as stated fails: with the first and the last point of the first
    line at (1, 2, 0), in the plane [z = 0], the step returns to its caller,
    and what it returns has NaN in [vector1] and [vector2]. *)
Lemma computeTwoVectorsAndRefPoint_returns_nan :
  exists refPoint vector1 vector2,
    HullOverlap.computeTwoVectorsAndRefPoint
      (F64.of_Z 0) (F64.of_Z 0) (F64.of_Z 1)
      (Some [xyz 1 2 0; xyz 5 5 0; xyz 1 2 0])
    = Returned (refPoint, vector1, vector2)
    /\ is_nan (Vector3d.v0 vector1) = true
    /\ is_nan (Vector3d.v0 vector2) = true.
Proof.
  exists (xyz 1 2 0), nan3, nan3. repeat split.
Qed.

(** C4 as amended, at the method "Convex". *)
Lemma invalid_method_exits_witness :
  HullOverlap.new line_a line_b (F64.of_Z 0) (F64.of_Z 0) (F64.of_Z 1)
    (F64.of_Z 0) "Convex" (F64.of_Z 1) (F64.of_Z 1)
  = Exited 1
  /\ forall u1 u2 this line1InBothHull line2InBothHull minimalMemory,
      HullOverlap.hullMethod this = "Convex"%string ->
      HullOverlap.computeHullsAndPointsInBothHulls project_in_plane on_vertex
        whole_cloud whole_cloud_indices insertion_sort u1 u2 this
        line1InBothHull line2InBothHull minimalMemory = Exited 1
      \/ HullOverlap.computeHullsAndPointsInBothHulls project_in_plane
           on_vertex whole_cloud whole_cloud_indices insertion_sort u1 u2 this
           line1InBothHull line2InBothHull minimalMemory = Undefined.
Proof.
  apply (invalid_method_exits project_in_plane on_vertex
           whole_cloud whole_cloud_indices insertion_sort);
    discriminate.
Defined.

(** C4 as stated fails: with the method "Convex" the constructor ends the
    process, and so does a call on an engine that holds that method; the
    caller is returned nothing. *)
Lemma invalid_method_ends_the_process :
  HullOverlap.new line_a line_b (F64.of_Z 0) (F64.of_Z 0) (F64.of_Z 1)
    (F64.of_Z 0) "Convex" (F64.of_Z 1) (F64.of_Z 1)
  = Exited 1
  /\ run_on_lines "Convex" (Some []) (Some []) false = Exited 1.
Proof. split; vm_compute; reflexivity. Qed.

(** * Further properties of the engine *)

Section RunProperties.

Variable ProjectInliers_filter : list float -> PointCloud -> PointCloud.
Variable isXYPointIn2DXYPolygon : PointXYZ -> PointCloud -> bool.
Variable ConcaveHull_reconstruct : bool -> double -> PointCloud -> PointCloud.
Variable ConcaveHull_getHullPointIndices : double -> PointCloud -> list Z.
Variable sort : list PointAndrews -> list PointAndrews.

Local Abbreviation computeHullsAndPointsInBothHulls :=
  (HullOverlap.computeHullsAndPointsInBothHulls ProjectInliers_filter
     isXYPointIn2DXYPolygon ConcaveHull_reconstruct
     ConcaveHull_getHullPointIndices sort).

Local Abbreviation computePointsInBothHulls :=
  (HullOverlap.computePointsInBothHulls ProjectInliers_filter
     isXYPointIn2DXYPolygon ConcaveHull_reconstruct
     ConcaveHull_getHullPointIndices sort).

Local Abbreviation computeBothHulls :=
  (HullOverlap.computeBothHulls ConcaveHull_reconstruct
     ConcaveHull_getHullPointIndices sort).

(** ** What a returned call has done *)

(** A call that returns has projected both lines, built the basis from the
    first one and both hulls, and ended in one of its three branches. *)
Lemma run_returned u1 u2 this o1 o2 minimalMemory this' counts clouds :
  computeHullsAndPointsInBothHulls u1 u2 this o1 o2 minimalMemory
  = Returned (this', counts, clouds) ->
  exists ref v1 v2 (h1 h2 : PointCloud) hi1 hi2,
    let l1p : PointCloud :=
      ProjectInliers_filter (HullOverlap.coefficients this)
        (HullOverlap.line1 this) in
    let l2p : PointCloud :=
      ProjectInliers_filter (HullOverlap.coefficients this)
        (HullOverlap.line2 this) in
    let l1d : PointCloud := map (HullOverlap.inPlane2D ref v1 v2) l1p in
    let l2d : PointCloud := map (HullOverlap.inPlane2D ref v1 v2) l2p in
    allocated this
    /\ HullOverlap.computeTwoVectorsAndRefPoint (HullOverlap.a this)
         (HullOverlap.b this) (HullOverlap.c this) (Some l1p)
       = Returned (ref, v1, v2)
    /\ computeBothHulls u1 u2 this (Some l1d) (Some l2d) minimalMemory
       = Returned ((h1, hi1), (h2, hi2))
    /\ ((exists c1 c2 out1 out2,
           o1 = Some c1 /\ o2 = Some c2 /\ minimalMemory = true
           /\ HullOverlap.findPointsInHullOnlyPoints isXYPointIn2DXYPolygon
                (HullOverlap.line1 this) (Some l1d) (@Some PointCloud [])
                (Some h2) = Returned out1
           /\ HullOverlap.findPointsInHullOnlyPoints isXYPointIn2DXYPolygon
                (HullOverlap.line2 this) (Some l2d) (@Some PointCloud [])
                (Some h1) = Returned out2
           /\ this' = HullOverlap.assign this None None None None None None
                        hi1 hi2
                        (HullOverlap.line1InBothHullPointIndices this)
                        (HullOverlap.line2InBothHullPointIndices this)
                        v1 v2 ref
           /\ counts = (N.of_nat (length out1), N.of_nat (length out2))
           /\ clouds = (Some out1, Some out2))
        \/ (exists c1 c2 out1 oi1 out2 oi2,
              o1 = Some c1 /\ o2 = Some c2 /\ minimalMemory = false
              /\ HullOverlap.findPointsInHull isXYPointIn2DXYPolygon
                   (HullOverlap.line1 this) (Some l1d) (@Some PointCloud [])
                   (Some h2) = Returned (out1, oi1)
              /\ HullOverlap.findPointsInHull isXYPointIn2DXYPolygon
                   (HullOverlap.line2 this) (Some l2d) (@Some PointCloud [])
                   (Some h1) = Returned (out2, oi2)
              /\ this' = HullOverlap.assign this (Some l1p) (Some l2p)
                           (Some l1d) (Some l2d) (Some h1) (Some h2)
                           hi1 hi2 oi1 oi2 v1 v2 ref
              /\ counts = (N.of_nat (length out1), N.of_nat (length out2))
              /\ clouds = (Some out1, Some out2))
        \/ (exists oi1 oi2,
              (o1 = None \/ o2 = None)
              /\ HullOverlap.findPointsInHullOnlyPointIndices
                   isXYPointIn2DXYPolygon (Some l1d) (Some h2) = Returned oi1
              /\ HullOverlap.findPointsInHullOnlyPointIndices
                   isXYPointIn2DXYPolygon (Some l2d) (Some h1) = Returned oi2
              /\ this' = HullOverlap.assign this
                           (if minimalMemory then None else Some l1p)
                           (if minimalMemory then None else Some l2p)
                           (Some l1d) (Some l2d) (Some h1) (Some h2)
                           hi1 hi2 oi1 oi2 v1 v2 ref
              /\ counts = (N.of_nat (length oi1), N.of_nat (length oi2))
              /\ clouds = (HullOverlap.cleared o1, HullOverlap.cleared o2))).
Proof.
  unfold HullOverlap.computeHullsAndPointsInBothHulls,
    HullOverlap.createCloudFromProjectionInPlane,
    HullOverlap.createCloudInPlane2D.
  intros H.
  destruct (HullOverlap.line1InPlane this) as [p1|] eqn:A1; [|discriminate].
  cbn [deref bind] in H.
  destruct (HullOverlap.computeTwoVectorsAndRefPoint _ _ _ _)
    as [[[ref v1] v2]| |] eqn:Eb; try discriminate.
  cbn [bind] in H.
  destruct (HullOverlap.line1InPlane2D this) as [d1|] eqn:A3; [|discriminate].
  destruct (HullOverlap.line2InPlane this) as [p2|] eqn:A2; [|discriminate].
  destruct (HullOverlap.line2InPlane2D this) as [d2|] eqn:A4; [|discriminate].
  cbn [deref bind] in H.
  destruct (HullOverlap.computeBothHulls _ _ _ _ _ _ _ _ _)
    as [[[h1 hi1] [h2 hi2]]| |] eqn:Eh; try discriminate.
  cbn [bind] in H.
  assert (A56 : HullOverlap.hull1Vertices this <> None
                /\ HullOverlap.hull2Vertices this <> None).
  { revert Eh. unfold HullOverlap.computeBothHulls,
      HullOverlap.computeVerticesOfConcaveHull,
      HullOverlap.computeVerticesOfHullAndrews.
    destruct (HullOverlap.hull1Vertices this), (HullOverlap.hull2Vertices this);
      [split; discriminate|..];
      destruct (HullOverlap.hullMethod this =? "PCL ConcaveHull")%string;
      try destruct (HullOverlap.hullMethod this =? "Andrew's")%string;
      cbn [deref bind]; discriminate. }
  exists ref, v1, v2, h1, h2, hi1, hi2. cbn zeta.
  split; [unfold allocated; rewrite A1, A2, A3, A4;
          repeat split; try discriminate; apply A56|].
  split; [first [exact Eb|reflexivity]|].
  split; [first [exact Eh|reflexivity]|].
  destruct o1 as [c1|], o2 as [c2|]; cbn [HullOverlap.cleared] in H.
  - destruct minimalMemory.
    + left.
      destruct (HullOverlap.findPointsInHullOnlyPoints _ (HullOverlap.line1 this) _ _ _)
        as [out1| |] eqn:E1; try discriminate. cbn [bind] in H.
      destruct (HullOverlap.findPointsInHullOnlyPoints _ (HullOverlap.line2 this) _ _ _)
        as [out2| |] eqn:E2; try discriminate. cbn [bind] in H.
      injection H as <- <- <-.
      exists c1, c2, out1, out2. repeat split; auto.
    + right; left.
      destruct (HullOverlap.findPointsInHull _ (HullOverlap.line1 this) _ _ _)
        as [[out1 oi1]| |] eqn:E1; try discriminate. cbn [bind] in H.
      destruct (HullOverlap.findPointsInHull _ (HullOverlap.line2 this) _ _ _)
        as [[out2 oi2]| |] eqn:E2; try discriminate. cbn [bind] in H.
      injection H as <- <- <-.
      exists c1, c2, out1, oi1, out2, oi2. repeat split; auto.
  - right; right.
    destruct (HullOverlap.findPointsInHullOnlyPointIndices _ _ (Some h2))
      as [oi1| |] eqn:E1; try discriminate. cbn [bind] in H.
    destruct (HullOverlap.findPointsInHullOnlyPointIndices _ _ (Some h1))
      as [oi2| |] eqn:E2; try discriminate. cbn [bind] in H.
    injection H as <- <- <-.
    exists oi1, oi2. repeat split; auto.
  - right; right.
    destruct (HullOverlap.findPointsInHullOnlyPointIndices _ _ (Some h2))
      as [oi1| |] eqn:E1; try discriminate. cbn [bind] in H.
    destruct (HullOverlap.findPointsInHullOnlyPointIndices _ _ (Some h1))
      as [oi2| |] eqn:E2; try discriminate. cbn [bind] in H.
    injection H as <- <- <-.
    exists oi1, oi2. repeat split; auto.
  - right; right.
    destruct (HullOverlap.findPointsInHullOnlyPointIndices _ _ (Some h2))
      as [oi1| |] eqn:E1; try discriminate. cbn [bind] in H.
    destruct (HullOverlap.findPointsInHullOnlyPointIndices _ _ (Some h1))
      as [oi2| |] eqn:E2; try discriminate. cbn [bind] in H.
    injection H as <- <- <-.
    exists oi1, oi2. repeat split; auto.
Qed.

(** ** The classification loops *)

Lemma findPointsInHullOnlyPointIndices_loop_In hull cloud :
  forall count i,
    In i (HullOverlap.findPointsInHullOnlyPointIndices_loop
            isXYPointIn2DXYPolygon hull count cloud)
    <-> exists k p, i = N.of_nat (count + k)
                    /\ nth_error cloud k = Some p
                    /\ isXYPointIn2DXYPolygon p hull = true.
Proof.
  induction cloud as [|q rest IH]; intros count i; cbn.
  - split; [contradiction|]. intros (k & p & _ & Hk & _). now destruct k.
  - destruct (isXYPointIn2DXYPolygon q hull) eqn:Eq.
    + split.
      * intros [<-|Hi].
        -- exists 0%nat, q. rewrite Nat.add_0_r. auto.
        -- apply IH in Hi as (k & p & -> & Hk & Hp).
           exists (S k), p. repeat split; trivial. f_equal. lia.
      * intros ([|k] & p & -> & Hk & Hp).
        -- left. now rewrite Nat.add_0_r.
        -- right. apply IH. exists k, p. repeat split; trivial.
           f_equal. lia.
    + rewrite IH. split.
      * intros (k & p & -> & Hk & Hp).
        exists (S k), p. repeat split; trivial. f_equal. lia.
      * intros ([|k] & p & -> & Hk & Hp).
        -- cbn in Hk. injection Hk as ->. congruence.
        -- exists k, p. repeat split; trivial. f_equal. lia.
Qed.

Lemma findPointsInHullOnlyPointIndices_loop_sorted hull cloud :
  forall count,
    StronglySorted N.lt
      (HullOverlap.findPointsInHullOnlyPointIndices_loop
         isXYPointIn2DXYPolygon hull count cloud).
Proof.
  induction cloud as [|q rest IH]; intros count; cbn; [constructor|].
  destruct (isXYPointIn2DXYPolygon q hull); [|apply IH].
  constructor; [apply IH|].
  apply Forall_forall. intros i Hi.
  apply findPointsInHullOnlyPointIndices_loop_In in Hi as (k & p & -> & _).
  lia.
Qed.

Lemma findPointsInHull_loop_points lineOriginal hull cloud :
  forall count out idx,
    HullOverlap.findPointsInHull_loop isXYPointIn2DXYPolygon
      lineOriginal hull count cloud = Returned (out, idx) ->
    Forall2 (fun q i => nth_error lineOriginal (N.to_nat i) = Some q) out idx.
Proof.
  induction cloud as [|p rest IH]; intros count out idx; cbn.
  - intros E; injection E as <- <-. constructor.
  - destruct (isXYPointIn2DXYPolygon p hull); [|apply IH].
    unfold at_index at 1.
    destruct (N.of_nat count <? N.of_nat (length lineOriginal))%N;
      [|discriminate].
    rewrite Nat2N.id.
    destruct (nth_error lineOriginal count) as [q|] eqn:Eq; [|discriminate].
    cbn [bind].
    destruct (HullOverlap.findPointsInHull_loop _ _ _ _ _)
      as [[out' idx']| |] eqn:E'; cbn [bind]; try discriminate.
    intros E; injection E as <- <-.
    constructor; [now rewrite Nat2N.id|]. eapply IH. exact E'.
Qed.

Lemma findPointsInHullOnlyPointIndices_is_loop (cloud hull : PointCloud) :
  cloud = [] \/ hull <> [] ->
  HullOverlap.findPointsInHullOnlyPointIndices isXYPointIn2DXYPolygon
    (Some cloud) (Some hull)
  = Returned (HullOverlap.findPointsInHullOnlyPointIndices_loop
                isXYPointIn2DXYPolygon hull 0 cloud).
Proof.
  unfold HullOverlap.findPointsInHullOnlyPointIndices. cbn [deref bind].
  intros [-> | Hne]; [reflexivity|].
  destruct cloud; [reflexivity|].
  now destruct (last_vertex_returns hull Hne) as [v ->].
Qed.

Lemma findPointsInHullOnlyPointIndices_returned (cloud hull : PointCloud) idx :
  HullOverlap.findPointsInHullOnlyPointIndices isXYPointIn2DXYPolygon
    (Some cloud) (Some hull) = Returned idx ->
  idx = HullOverlap.findPointsInHullOnlyPointIndices_loop
          isXYPointIn2DXYPolygon hull 0 cloud.
Proof.
  unfold HullOverlap.findPointsInHullOnlyPointIndices. cbn [deref bind].
  destruct cloud; [intros E; now injection E as <-|].
  destruct (HullOverlap.last_vertex hull); cbn [bind]; try discriminate.
  intros E; now injection E as <-.
Qed.

Lemma findPointsInHullOnlyPointIndices_empty_hull (cloud : PointCloud) :
  cloud <> [] ->
  HullOverlap.findPointsInHullOnlyPointIndices isXYPointIn2DXYPolygon
    (Some cloud) (@Some PointCloud []) = Undefined.
Proof. destruct cloud; [congruence|reflexivity]. Qed.

Lemma findPointsInHullOnlyPointIndices_loop_inside (cloud hull : PointCloud) i :
  In i (HullOverlap.findPointsInHullOnlyPointIndices_loop
          isXYPointIn2DXYPolygon hull 0 cloud)
  <-> inside_at (fun p => isXYPointIn2DXYPolygon p hull) cloud i.
Proof.
  rewrite findPointsInHullOnlyPointIndices_loop_In.
  unfold inside_at. split.
  - intros (k & p & -> & Hk & Hp). exists p. now rewrite Nat2N.id.
  - intros (p & Hk & Hp). exists (N.to_nat i), p.
    repeat split; trivial. cbn [Nat.add]. now rewrite N2Nat.id.
Qed.

(** [findPointsInHullOnlyPointIndices], given a cloud and a hull:
    with a point to classify and no vertex in the hull, the polygon test
    reads outside the hull and the function does not return; in every
    other case it returns, in strictly increasing order and each once,
    exactly the positions of the cloud whose point the polygon test
    accepts. *)
Theorem findPointsInHullOnlyPointIndices_exact (cloud hull : PointCloud) :
  (cloud <> [] /\ hull = []
   /\ HullOverlap.findPointsInHullOnlyPointIndices isXYPointIn2DXYPolygon
        (Some cloud) (Some hull) = Undefined)
  \/ ((cloud = [] \/ hull <> [])
      /\ exists idx,
           HullOverlap.findPointsInHullOnlyPointIndices isXYPointIn2DXYPolygon
             (Some cloud) (Some hull) = Returned idx
           /\ StronglySorted N.lt idx
           /\ forall i,
                In i idx
                <-> inside_at (fun p => isXYPointIn2DXYPolygon p hull)
                              cloud i).
Proof.
  assert (Hcase : (cloud <> [] /\ hull = []) \/ (cloud = [] \/ hull <> [])).
  { destruct cloud; [right; now left|].
    destruct hull; [left; split; [discriminate|reflexivity]|].
    right; right; discriminate. }
  destruct Hcase as [[Hc ->] | Hret].
  - left. repeat split; trivial.
    now apply findPointsInHullOnlyPointIndices_empty_hull.
  - right. split; [exact Hret|]. eexists.
    split; [apply findPointsInHullOnlyPointIndices_is_loop; exact Hret|].
    split; [apply findPointsInHullOnlyPointIndices_loop_sorted|].
    apply findPointsInHullOnlyPointIndices_loop_inside.
Qed.

Lemma findPointsInHull_returned
    lineOriginal (cloud out hull : PointCloud) points indices :
  HullOverlap.findPointsInHull isXYPointIn2DXYPolygon
    lineOriginal (Some cloud) (Some out) (Some hull)
  = Returned (points, indices) ->
  HullOverlap.findPointsInHullOnlyPointIndices isXYPointIn2DXYPolygon
    (Some cloud) (Some hull) = Returned indices
  /\ Forall2 (fun q i => nth_error lineOriginal (N.to_nat i) = Some q)
             points indices.
Proof.
  unfold HullOverlap.findPointsInHull,
    HullOverlap.findPointsInHullOnlyPointIndices.
  cbn [deref bind].
  destruct cloud as [|p rest].
  - intros E; injection E as <- <-. split; [reflexivity|constructor].
  - destruct (HullOverlap.last_vertex hull); cbn [bind]; try discriminate.
    intros E. split.
    + f_equal. symmetry.
      eapply (findPointsInHull_loop_indices isXYPointIn2DXYPolygon). exact E.
    + eapply findPointsInHull_loop_points. exact E.
Qed.

Lemma findPointsInHullOnlyPointIndices_in_range (cloud hull : PointCloud) idx :
  HullOverlap.findPointsInHullOnlyPointIndices isXYPointIn2DXYPolygon
    (Some cloud) (Some hull) = Returned idx ->
  Forall (fun i => (i < N.of_nat (length cloud))%N) idx.
Proof.
  intros E. apply findPointsInHullOnlyPointIndices_returned in E as ->.
  apply Forall_forall. intros i Hi.
  apply findPointsInHullOnlyPointIndices_loop_In in Hi as (k & p & -> & Hk & _).
  assert (k < length cloud)%nat by (apply nth_error_Some; congruence).
  lia.
Qed.

(** When [findPointsInHull] returns, the two lists it fills are parallel:
    the indices are the accepted positions of the classified cloud, in
    increasing order, and the cloud holds the points of the original line
    at those indices, one per index. *)
Theorem findPointsInHull_points_at_indices
    lineOriginal (cloud out hull : PointCloud) points indices :
  HullOverlap.findPointsInHull isXYPointIn2DXYPolygon
    lineOriginal (Some cloud) (Some out) (Some hull)
  = Returned (points, indices) ->
  length points = length indices
  /\ StronglySorted N.lt indices
  /\ (forall i, In i indices
                <-> inside_at (fun p => isXYPointIn2DXYPolygon p hull) cloud i)
  /\ Forall2 (fun q i => nth_error lineOriginal (N.to_nat i) = Some q)
             points indices.
Proof.
  intros E. apply findPointsInHull_returned in E as [Ei Hp].
  apply findPointsInHullOnlyPointIndices_returned in Ei as ->.
  split; [eapply Forall2_length; exact Hp|].
  split; [apply findPointsInHullOnlyPointIndices_loop_sorted|].
  split; [apply findPointsInHullOnlyPointIndices_loop_inside|exact Hp].
Qed.

(** [findPointsInHullOnlyPoints] returns a cloud exactly when
    [findPointsInHull] returns that cloud with some index list. *)
Theorem findPointsInHullOnlyPoints_iff
    lineOriginal cloudIn cloudOut hullVertices points :
  HullOverlap.findPointsInHullOnlyPoints isXYPointIn2DXYPolygon
    lineOriginal cloudIn cloudOut hullVertices = Returned points
  <-> exists indices,
        HullOverlap.findPointsInHull isXYPointIn2DXYPolygon
          lineOriginal cloudIn cloudOut hullVertices
        = Returned (points, indices).
Proof.
  rewrite (findPointsInHullOnlyPoints_spec isXYPointIn2DXYPolygon).
  destruct (HullOverlap.findPointsInHull _ _ _ _ _) as [[out idx]| |];
    cbn [bind fst]; split.
  - intros E; injection E as <-. now exists idx.
  - intros (idx' & E). injection E as <- _. reflexivity.
  - discriminate.
  - intros (idx' & E). discriminate.
  - discriminate.
  - intros (idx' & E). discriminate.
Qed.

(** ** The engine after a call *)

(** After [computePointsInBothHulls] has returned, the engine cannot be
    run again: the call released [line1InPlane], and any further call
    starts by clearing the cloud behind that null pointer. *)
Theorem computePointsInBothHulls_single_use
    u1 u2 this o1 o2 this' counts clouds :
  computePointsInBothHulls u1 u2 this o1 o2
  = Returned (this', counts, clouds) ->
  forall u1' u2' o1' o2' minimalMemory,
    computeHullsAndPointsInBothHulls u1' u2' this' o1' o2' minimalMemory
    = Undefined.
Proof.
  unfold HullOverlap.computePointsInBothHulls. intros H.
  apply run_returned in H
    as (ref & v1 & v2 & h1 & h2 & hi1 & hi2 & _ & _ & _ & H).
  cbn zeta in H. intros u1' u2' o1' o2' mm.
  destruct H as [(c1 & c2 & out1 & out2 & _ & _ & _ & _ & _ & -> & _)
                |[(c1 & c2 & out1 & oi1 & out2 & oi2 & _ & _ & Hm & _)
                 |(oi1 & oi2 & _ & _ & _ & -> & _)]];
    [reflexivity|discriminate|reflexivity].
Qed.


(** In minimal-memory mode with both clouds given, a call records no
    overlap indices and keeps no cloud: afterwards the count and the index
    list of every line are what they were before the call, and the
    accessors of the 2D and 3D clouds answer [nullptr]. *)
Theorem minimal_memory_records_no_indices
    u1 u2 this c1 c2 this' counts clouds :
  computeHullsAndPointsInBothHulls u1 u2 this (Some c1) (Some c2) true
  = Returned (this', counts, clouds) ->
  forall lineNumber,
    HullOverlap.getNbPointsInOverlap this' lineNumber
    = HullOverlap.getNbPointsInOverlap this lineNumber
    /\ HullOverlap.getConstPtrlineInBothHullPointIndices this' lineNumber
       = HullOverlap.getConstPtrlineInBothHullPointIndices this lineNumber
    /\ HullOverlap.getConstPtrlineInPlane2D this' lineNumber = None
    /\ HullOverlap.getConstPtrlineInPlane3D this' lineNumber = None.
Proof.
  intros H lineNumber.
  apply run_returned in H
    as (ref & v1 & v2 & h1 & h2 & hi1 & hi2 & _ & _ & _ & H).
  cbn zeta in H.
  destruct H as [(c1' & c2' & out1 & out2 & _ & _ & _ & _ & _ & -> & _)
                |[(c1' & c2' & out1 & oi1 & out2 & oi2 & _ & _ & Hm & _)
                 |(oi1 & oi2 & [Ho|Ho] & _)]]; try discriminate.
  unfold HullOverlap.getNbPointsInOverlap,
    HullOverlap.getConstPtrlineInBothHullPointIndices,
    HullOverlap.getConstPtrlineInPlane2D, HullOverlap.getConstPtrlineInPlane3D.
  cbn. destruct (HullOverlap.invalid_line lineNumber), (lineNumber =? 0);
    repeat split.
Qed.

(** After a call in full mode, the accessors give for each line its
    projected cloud and its 2D cloud; the two have the same length, and
    every point of the 2D cloud has [z = 0]. *)
Theorem full_mode_keeps_parallel_clouds
    u1 u2 this o1 o2 this' counts clouds :
  computeHullsAndPointsInBothHulls u1 u2 this o1 o2 false
  = Returned (this', counts, clouds) ->
  exists l1d l2d,
    HullOverlap.getConstPtrlineInPlane3D this' 0
    = Some (ProjectInliers_filter (HullOverlap.coefficients this)
              (HullOverlap.line1 this))
    /\ HullOverlap.getConstPtrlineInPlane3D this' 1
       = Some (ProjectInliers_filter (HullOverlap.coefficients this)
                 (HullOverlap.line2 this))
    /\ HullOverlap.getConstPtrlineInPlane2D this' 0 = Some l1d
    /\ HullOverlap.getConstPtrlineInPlane2D this' 1 = Some l2d
    /\ length l1d
       = length (ProjectInliers_filter (HullOverlap.coefficients this)
                   (HullOverlap.line1 this))
    /\ length l2d
       = length (ProjectInliers_filter (HullOverlap.coefficients this)
                   (HullOverlap.line2 this))
    /\ Forall (fun p => PointXYZ.z p = F32.of_Z 0) (l1d ++ l2d).
Proof.
  intros H.
  apply run_returned in H
    as (ref & v1 & v2 & h1 & h2 & hi1 & hi2 & _ & _ & _ & H).
  cbn zeta in H.
  assert (Hz : forall l, Forall (fun p => PointXYZ.z p = F32.of_Z 0)
                           (map (HullOverlap.inPlane2D ref v1 v2) l))
    by (intros l; apply Forall_forall; intros p Hp;
        apply in_map_iff in Hp as (q & <- & _); reflexivity).
  destruct H as [(c1 & c2 & out1 & out2 & _ & _ & Hm & _)
                |[(c1 & c2 & out1 & oi1 & out2 & oi2
                   & _ & _ & _ & _ & _ & -> & _)
                 |(oi1 & oi2 & _ & _ & _ & -> & _)]]; try discriminate;
    do 2 eexists; cbn;
    (repeat split; [apply length_map|apply length_map|]);
    apply Forall_app; split; apply Hz.
Qed.

(** ** The bounding boxes after a call *)

Lemma min_max_loop2D_returns (cloud : PointCloud) indices :
  Forall (fun i => (i < N.of_nat (length cloud))%N) indices ->
  forall bx by_,
    exists r, HullOverlap.min_max_loop2D (Some cloud) indices bx by_
              = Returned r.
Proof.
  induction 1 as [|i rest Hi _ IH]; intros bx by_; cbn [HullOverlap.min_max_loop2D].
  - eexists. reflexivity.
  - cbn [deref bind]. destruct (at_index_lt _ cloud i Hi) as [p ->].
    cbn [bind]. apply IH.
Qed.


Lemma getMinMaxPointsInOverlapPlane2D_returns this (l1d l2d : PointCloud)
    minPt maxPt :
  HullOverlap.line1InPlane2D this = Some l1d ->
  HullOverlap.line2InPlane2D this = Some l2d ->
  Forall (fun i => (i < N.of_nat (length l1d))%N)
         (HullOverlap.line1InBothHullPointIndices this) ->
  Forall (fun i => (i < N.of_nat (length l2d))%N)
         (HullOverlap.line2InBothHullPointIndices this) ->
  HullOverlap.line1InBothHullPointIndices this <> [] ->
  HullOverlap.line2InBothHullPointIndices this <> [] ->
  exists minPt' maxPt',
    HullOverlap.getMinMaxPointsInOverlapPlane2D this minPt maxPt
    = Returned (true, minPt', maxPt').
Proof.
  intros E1 E2 F1 F2 N1 N2.
  unfold HullOverlap.getMinMaxPointsInOverlapPlane2D. rewrite E1, E2.
  destruct (HullOverlap.line1InBothHullPointIndices this) as [|i1 r1];
    [congruence|].
  destruct (HullOverlap.line2InBothHullPointIndices this) as [|i2 r2];
    [congruence|].
  cbn [length Nat.ltb Nat.leb andb].
  destruct (min_max_loop2D_returns l1d (i1 :: r1) F1
              HullOverlap.initial_bounds HullOverlap.initial_bounds)
    as [[bx by_] ->].
  cbn [bind].
  destruct (min_max_loop2D_returns l2d (i2 :: r2) F2 bx by_)
    as [[[xMin xMax] [yMin yMax]] ->].
  cbn [bind]. do 2 eexists. reflexivity.
Qed.


Lemma positive_count (A : Type) (l : list A) :
  (0 < N.of_nat (length l))%N -> l <> [].
Proof. destruct l; [cbn; lia|discriminate]. Qed.


(** After a call in minimal-memory mode with a null caller's cloud that
    counted overlap in both lines, the 3D bounding-box query reads through
    the released [line1InPlane]: it does not return.  The 2D query, whose
    clouds that call keeps, returns with [OK = true]. *)
Theorem minimal_memory_3D_box_reads_released_cloud
    u1 u2 this o1 o2 this' n1 n2 clouds minPt maxPt :
  computePointsInBothHulls u1 u2 this o1 o2
  = Returned (this', (n1, n2), clouds) ->
  o1 = None \/ o2 = None ->
  (0 < n1)%N -> (0 < n2)%N ->
  HullOverlap.getMinMaxPointsInOverlapPlane3D this' minPt maxPt = Undefined
  /\ exists minPt' maxPt',
       HullOverlap.getMinMaxPointsInOverlapPlane2D this' minPt maxPt
       = Returned (true, minPt', maxPt').
Proof.
  unfold HullOverlap.computePointsInBothHulls. intros H Ho P1 P2.
  apply run_returned in H
    as (ref & v1 & v2 & h1 & h2 & hi1 & hi2 & _ & _ & _ & H).
  cbn zeta in H.
  destruct H as [(c1 & c2 & out1 & out2 & -> & -> & _)
                |[(c1 & c2 & out1 & oi1 & out2 & oi2 & _ & _ & Hm & _)
                 |(oi1 & oi2 & _ & E1 & E2 & -> & Hc & _)]]; try discriminate.
  - destruct Ho; discriminate.
  - injection Hc as -> ->.
    apply positive_count in P1, P2.
    split.
    + unfold HullOverlap.getMinMaxPointsInOverlapPlane3D. cbn.
      destruct oi1; [congruence|]. destruct oi2; [congruence|]. reflexivity.
    + apply findPointsInHullOnlyPointIndices_in_range in E1, E2.
      eapply getMinMaxPointsInOverlapPlane2D_returns;
        try reflexivity; assumption.
Qed.

(** ** Running again *)

(** What a call gives its caller depends on the engine only through its
    configuration, once the six clouds are allocated. *)
Lemma observed_same_configuration u1 u2 this that o1 o2 minimalMemory :
  allocated this -> allocated that -> same_configuration this that ->
  observed (computeHullsAndPointsInBothHulls u1 u2 this o1 o2 minimalMemory)
  = observed (computeHullsAndPointsInBothHulls u1 u2 that o1 o2 minimalMemory).
Proof.
  destruct this, that.
  unfold allocated, same_configuration. cbn.
  intros (A1 & A2 & A3 & A4 & A5 & A6) (B1 & B2 & B3 & B4 & B5 & B6)
         (-> & -> & -> & -> & -> & -> & -> & -> & -> & ->).
  repeat match goal with
         | H : ?x <> None |- _ =>
             destruct x; [clear H|exfalso; now apply H]
         end.
  unfold HullOverlap.computeHullsAndPointsInBothHulls,
    HullOverlap.createCloudFromProjectionInPlane,
    HullOverlap.createCloudInPlane2D, HullOverlap.computeBothHulls,
    HullOverlap.computeVerticesOfConcaveHull,
    HullOverlap.computeVerticesOfHullAndrews.
  cbn [deref bind HullOverlap.line1 HullOverlap.line2 HullOverlap.a
       HullOverlap.b HullOverlap.c HullOverlap.coefficients
       HullOverlap.hullMethod HullOverlap.alphaLine1 HullOverlap.alphaLine2
       HullOverlap.line1InPlane HullOverlap.line2InPlane
       HullOverlap.line1InPlane2D HullOverlap.line2InPlane2D
       HullOverlap.hull1Vertices HullOverlap.hull2Vertices
       HullOverlap.hull1PointIndices HullOverlap.hull2PointIndices].
  destruct (HullOverlap.computeTwoVectorsAndRefPoint _ _ _ _)
    as [[[ref v1] v2]| |]; cbn [bind]; trivial.
  destruct (hullMethod0 =? "PCL ConcaveHull")%string;
    [|destruct (hullMethod0 =? "Andrew's")%string; [|reflexivity]];
    cbn [bind];
    destruct o1, o2; cbn [HullOverlap.cleared];
    try destruct minimalMemory;
    repeat match goal with
           | |- context [bind ?m _] =>
               lazymatch m with
               | Returned _ => fail
               | _ => destruct m as [[? ?]| |] || destruct m
               end; cbn [bind]
           end; reflexivity.
Qed.

(** A call in full mode that returned can be repeated: on the engine it
    left, the same call returns the same counts and the same caller's
    clouds. *)
Theorem full_mode_call_repeats
    u1 u2 this o1 o2 this' counts clouds :
  computeHullsAndPointsInBothHulls u1 u2 this o1 o2 false
  = Returned (this', counts, clouds) ->
  observed (computeHullsAndPointsInBothHulls u1 u2 this' o1 o2 false)
  = Returned (counts, clouds).
Proof.
  intros H.
  pose proof (run_returned _ _ _ _ _ _ _ _ _ H)
    as (ref & v1 & v2 & h1 & h2 & hi1 & hi2 & Ha & _ & _ & K).
  cbn zeta in K.
  assert (Hthis' : allocated this' /\ same_configuration this' this).
  { destruct K as [(c1 & c2 & out1 & out2 & _ & _ & Hm & _)
                  |[(c1 & c2 & out1 & oi1 & out2 & oi2
                     & _ & _ & _ & _ & _ & -> & _)
                   |(oi1 & oi2 & _ & _ & _ & -> & _)]]; try discriminate;
      (split; [repeat split; discriminate|repeat split]). }
  destruct Hthis' as [Ha' Hc'].
  rewrite (observed_same_configuration u1 u2 this' this o1 o2 false Ha' Ha Hc').
  now rewrite H.
Qed.

(** ** When a call returns *)

(** On an engine whose clouds are allocated, with a valid method, a call
    returns when the first line does not project to nothing, PCL
    projects each line to a cloud no longer than the line, and each of the
    two hulls the call computes has a vertex. *)
Theorem computeHullsAndPointsInBothHulls_returns
    u1 u2 this o1 o2 minimalMemory :
  let l1p : PointCloud :=
    ProjectInliers_filter (HullOverlap.coefficients this)
      (HullOverlap.line1 this) in
  let l2p : PointCloud :=
    ProjectInliers_filter (HullOverlap.coefficients this)
      (HullOverlap.line2 this) in
  allocated this ->
  HullOverlap.valid_method (HullOverlap.hullMethod this) = true ->
  l1p <> [] ->
  (length l1p <= length (HullOverlap.line1 this))%nat ->
  (length l2p <= length (HullOverlap.line2 this))%nat ->
  (forall ref v1 v2,
     HullOverlap.computeTwoVectorsAndRefPoint (HullOverlap.a this)
       (HullOverlap.b this) (HullOverlap.c this) (Some l1p)
     = Returned (ref, v1, v2) ->
     hulls_not_empty
       (computeBothHulls u1 u2 this
          (Some (map (HullOverlap.inPlane2D ref v1 v2) l1p))
          (Some (map (HullOverlap.inPlane2D ref v1 v2) l2p))
          minimalMemory)) ->
  exists result,
    computeHullsAndPointsInBothHulls u1 u2 this o1 o2 minimalMemory
    = Returned result.
Proof.
  intros l1p l2p (A1 & A2 & A3 & A4 & A5 & A6) Hm Hne Hl1 Hl2 Hhull.
  unfold HullOverlap.computeHullsAndPointsInBothHulls,
    HullOverlap.createCloudFromProjectionInPlane,
    HullOverlap.createCloudInPlane2D.
  destruct (HullOverlap.line1InPlane this) as [p1|]; [|congruence].
  destruct (HullOverlap.line2InPlane this) as [p2|]; [|congruence].
  destruct (HullOverlap.line1InPlane2D this) as [d1|]; [|congruence].
  destruct (HullOverlap.line2InPlane2D this) as [d2|]; [|congruence].
  cbn [deref bind].
  destruct (computeTwoVectorsAndRefPoint_returns
              (HullOverlap.a this) (HullOverlap.b this) (HullOverlap.c this)
              l1p Hne) as [[[ref v1] v2] Eb].
  fold l1p l2p. rewrite Eb. cbn [deref bind].
  destruct (computeBothHulls_returns ConcaveHull_reconstruct
              ConcaveHull_getHullPointIndices sort u1 u2 this
              (map (HullOverlap.inPlane2D ref v1 v2) l1p)
              (map (HullOverlap.inPlane2D ref v1 v2) l2p)
              minimalMemory Hm A5 A6) as [[[h1 hi1] [h2 hi2]] Eh].
  destruct (Hhull ref v1 v2 Eb h1 hi1 h2 hi2 Eh) as [Hh1 Hh2].
  rewrite Eh. cbn [bind].
  destruct o1 as [c1|], o2 as [c2|]; cbn [HullOverlap.cleared];
    try (rewrite !findPointsInHullOnlyPointIndices_is_loop by (now right);
         cbn [bind]; eexists; reflexivity).
  rewrite ?(findPointsInHullOnlyPoints_spec isXYPointIn2DXYPolygon).
  repeat match goal with
  | |- context [HullOverlap.findPointsInHull _ ?L (Some ?x) (Some ?o) (Some ?h)] =>
      let E := fresh "E" in
      destruct (findPointsInHull_returns isXYPointIn2DXYPolygon L x o h)
        as [[? ?] E]; [now rewrite length_map|assumption|];
      rewrite E; clear E
  end.
  destruct minimalMemory; cbn [bind fst]; eexists; reflexivity.
Qed.

(** [computeTwoVectorsAndRefPoint] returns exactly when the projected first
    line has a point; the reference point is then the first one. *)
Theorem computeTwoVectorsAndRefPoint_returns_iff a b c :
  HullOverlap.computeTwoVectorsAndRefPoint a b c (Some []) = Undefined
  /\ forall first rest,
       exists vector1 vector2,
         HullOverlap.computeTwoVectorsAndRefPoint a b c (Some (first :: rest))
         = Returned (first, vector1, vector2).
Proof.
  split; [reflexivity|].
  intros first rest.
  destruct (computeTwoVectorsAndRefPoint_returns a b c (first :: rest))
    as [[[ref v1] v2] E]; [discriminate|].
  exists v1, v2. transitivity (Returned (ref, v1, v2)); [exact E|].
  f_equal. f_equal. f_equal.
  revert E. unfold HullOverlap.computeTwoVectorsAndRefPoint.
  cbn [deref bind]. change (at_index (first :: rest) 0) with (Returned first).
  cbn [bind].
  destruct (at_index (first :: rest) _); cbn [bind]; try discriminate.
  intros E; now injection E.
Qed.


(** ** One caller's cloud null *)


(** ** An empty second line *)

(** With the method "Andrew's" and an empty second line (PCL taken to
    project the empty cloud to the empty cloud), no call returns, whatever
    the first line, the caller's clouds, the mode and the starting values
    of the counters: the hull of the second line has no vertex, and the
    polygon test of the first point of the first line reads outside it;
    with an empty first line the basis has already read outside that
    line. *)
Theorem empty_line2_read_out_of_range
    u1 u2 this line1InBothHull line2InBothHull minimalMemory :
  HullOverlap.hullMethod this = "Andrew's"%string ->
  HullOverlap.line2 this = [] ->
  ProjectInliers_filter (HullOverlap.coefficients this) [] = [] ->
  computeHullsAndPointsInBothHulls u1 u2 this
    line1InBothHull line2InBothHull minimalMemory
  = Undefined.
Proof.
  intros Hm Hl2 Hp.
  unfold HullOverlap.computeHullsAndPointsInBothHulls,
    HullOverlap.createCloudFromProjectionInPlane,
    HullOverlap.createCloudInPlane2D, HullOverlap.computeBothHulls,
    HullOverlap.computeVerticesOfHullAndrews.
  rewrite Hl2, Hp, Hm. cbn [String.eqb Ascii.eqb Bool.eqb map].
  destruct (HullOverlap.line1InPlane this) as [p1|]; cbn [deref bind]; trivial.
  destruct (HullOverlap.computeTwoVectorsAndRefPoint _ _ _ _)
    as [[[ref v1] v2]| |] eqn:Eb; cbn [bind]; trivial;
    [|exfalso; revert Eb; unfold HullOverlap.computeTwoVectorsAndRefPoint;
      cbn [deref bind];
      destruct (at_index _ 0) eqn:E0; cbn [bind]; try discriminate;
        [|now apply at_index_not_exited in E0];
      destruct (at_index _ (uint64_pred _)) eqn:El; cbn [bind];
        try discriminate; now apply at_index_not_exited in El].
  assert (Hne : ProjectInliers_filter (HullOverlap.coefficients this)
                  (HullOverlap.line1 this) <> []).
  { intros E. rewrite E in Eb. discriminate Eb. }
  destruct (HullOverlap.line1InPlane2D this) as [d1|]; cbn [deref bind]; trivial.
  destruct (HullOverlap.line2InPlane this) as [p2|]; cbn [deref bind]; trivial.
  destruct (HullOverlap.line2InPlane2D this) as [d2|]; cbn [deref bind]; trivial.
  destruct (HullOverlap.hull1Vertices this) as [hv1|]; cbn [deref bind]; trivial.
  destruct (HullOverlap.hull2Vertices this) as [hv2|]; cbn [deref bind]; trivial.
  rewrite visited_from_nil. cbn [map AndrewsConvex_hull fst length Nat.leb].
  rewrite visited_from_nil. cbn [map].
  destruct (ProjectInliers_filter (HullOverlap.coefficients this)
              (HullOverlap.line1 this)) as [|q l1p]; [congruence|].
  cbn [map].
  destruct line1InBothHull as [c1|], line2InBothHull as [c2|];
    cbn [HullOverlap.cleared];
    try destruct minimalMemory; reflexivity.
Qed.

End RunProperties.

(** * Further properties of Andrew's monotone chain *)

Section ChainProperties.

Variable sort : list PointAndrews -> list PointAndrews.

(** ** The extreme points *)

Lemma pop_while_two t p a o r :
  pop_while t p (a :: o :: r)
  = if (t <=? length (a :: o :: r))%nat && not_left_turn o a p
    then pop_while t p (o :: r)
    else a :: o :: r.
Proof. reflexivity. Qed.

(** The vertices below [t - 1] are never popped. *)
Lemma pop_while_keeps_suffix p s : forall u,
  exists u', pop_while (S (length s)) p (u ++ s) = u' ++ s
             /\ (length u' <= length u)%nat.
Proof.
  induction u as [|a u IH]; cbn [app].
  - exists []. split; [|reflexivity]. cbn [app].
    destruct s as [|a [|o s]]; trivial.
    cbn [pop_while].
    replace (S (length (a :: o :: s)) <=? length (a :: o :: s))%nat
      with false by (symmetry; apply Nat.leb_gt; lia).
    reflexivity.
  - destruct (u ++ s) as [|o r] eqn:E.
    + exists [a]. apply app_eq_nil in E as [-> ->]. now split.
    + rewrite pop_while_two.
      destruct ((S (length s) <=? length (a :: o :: r))%nat
                && not_left_turn o a p).
      * destruct IH as (u' & -> & Hl).
        exists u'. split; [reflexivity|]. cbn [length]. lia.
      * exists (a :: u). cbn [app]. now rewrite E.
Qed.

Lemma chain_keeps_suffix s l : forall u,
  exists u', fold_left (chain_step (S (length s))) l (u ++ s) = u' ++ s
             /\ (length u' <= length u + length l)%nat
             /\ (forall d, l <> [] -> hd_error u' = Some (last l d)).
Proof.
  induction l as [|p l IH]; intros u; cbn [fold_left].
  - exists u. split; [reflexivity|]. split; [cbn; lia|congruence].
  - unfold chain_step at 2.
    destruct (pop_while_keeps_suffix p s u) as (u1 & -> & Hl1).
    destruct (IH (p :: u1)) as (u' & E & Hl & Hhd). cbn [app] in E.
    exists u'. split; [exact E|]. split; [cbn [length] in *; lia|].
    intros d _. destruct l as [|q l].
    + cbn in E. cbn.
      assert (u' = p :: u1) by (apply (app_inv_tail s); symmetry; exact E).
      now subst.
    + rewrite (Hhd d) by discriminate. reflexivity.
Qed.

(** From a first point on, the lower chain keeps that point at the bottom
    and ends with the last point. *)
Lemma lower_chain_cons first rest :
  exists u, lower_chain (first :: rest) = u ++ [first]
            /\ (length u <= length rest)%nat
            /\ hd_error (u ++ [first]) = Some (last rest first).
Proof.
  unfold lower_chain. cbn [fold_left].
  change (chain_step 2 [] first) with ([] ++ [first]).
  destruct (chain_keeps_suffix [first] rest []) as (u & E & Hl & Hhd).
  cbn [length] in E. exists u. split; [exact E|]. split; [exact Hl|].
  destruct rest as [|q rest].
  - cbn in Hl. destruct u; [reflexivity|cbn in Hl; lia].
  - specialize (Hhd first ltac:(discriminate)).
    destruct u as [|x u]; [discriminate|]. exact Hhd.
Qed.

Lemma upper_chain_cons first rest :
  rest <> [] ->
  exists u, upper_chain (first :: rest) (lower_chain (first :: rest))
            = first :: u ++ lower_chain (first :: rest)
            /\ (length u < length rest)%nat.
Proof.
  intros Hne. unfold upper_chain.
  destruct (chain_keeps_suffix (lower_chain (first :: rest))
              (rev (removelast (first :: rest))) []) as (u & E & Hl & Hhd).
  cbn [app] in E. rewrite E.
  assert (Hrem : removelast (first :: rest) = first :: removelast rest)
    by (destruct rest; [congruence|reflexivity]).
  rewrite Hrem in *. cbn [rev] in *.
  specialize (Hhd first ltac:(now destruct (rev (removelast rest)))).
  rewrite last_last in Hhd.
  destruct u as [|x u]; [discriminate|]. injection Hhd as ->.
  exists u. split; [reflexivity|].
  rewrite length_app, length_rev in Hl. cbn [length] in Hl.
  assert (length (removelast rest) < length rest)%nat.
  { clear -Hne. induction rest as [|a [|b r] IH]; [congruence|cbn; lia|].
    cbn [removelast length] in *.
    specialize (IH ltac:(discriminate)). lia. }
  lia.
Qed.

(** With more than three points, the hull begins with the lower chain:
    its first vertex is the first of the sorted points, and the last of the
    sorted points closes the lower chain.  The vertex the final [resize]
    drops is a second copy of the first one. *)
Theorem AndrewsConvex_hull_extreme_points points first rest :
  (3 < length points)%nat ->
  sort points = first :: rest ->
  rest <> [] ->
  hd_error (fst (AndrewsConvex_hull sort points)) = Some first
  /\ nth_error (fst (AndrewsConvex_hull sort points))
               (length (lower_chain (sort points)) - 1)
     = Some (last rest first)
  /\ hd_error (upper_chain (sort points) (lower_chain (sort points)))
     = Some first.
Proof.
  intros Hn Hs Hne. unfold AndrewsConvex_hull.
  apply Nat.leb_gt in Hn. rewrite Hn. cbn [fst]. rewrite Hs.
  destruct (upper_chain_cons first rest Hne) as (u & -> & _).
  destruct (lower_chain_cons first rest) as (l & El & _ & Hhd).
  rewrite <- El in Hhd. cbn [tl hd_error].
  rewrite rev_app_distr.
  split; [|split; [|reflexivity]].
  - rewrite El, rev_app_distr. reflexivity.
  - destruct (lower_chain (first :: rest)) as [|top lower]; [discriminate|].
    injection Hhd as ->. cbn [rev length].
    rewrite nth_error_app1
      by (rewrite length_app, length_rev; cbn [length]; lia).
    rewrite nth_error_app2 by (rewrite length_rev; lia).
    rewrite length_rev.
    replace (S (length lower) - 1 - length lower)%nat with 0%nat by lia.
    reflexivity.
Qed.

(** ** The size of the array *)

Lemma pop_while_length_le t p hull :
  (length (pop_while t p hull) <= length hull)%nat.
Proof.
  destruct (pop_while_suffix t p hull) as [popped E].
  rewrite E at 2. rewrite length_app. lia.
Qed.

Lemma chain_length_le t l : forall hull,
  (length (fold_left (chain_step t) l hull) <= length hull + length l)%nat.
Proof.
  induction l as [|p l IH]; intros hull; cbn [fold_left length]; [lia|].
  specialize (IH (chain_step t hull p)).
  assert (length (chain_step t hull p) <= S (length hull))%nat
    by (unfold chain_step; cbn [length];
        pose proof (pop_while_length_le t p hull); lia).
  lia.
Qed.

(** [k] stays below the [2 * n] entries [hull.resize( 2 * n )] provides:
    after any number of iterations of the lower chain the stack holds at
    most [n] vertices, and after any number of iterations of the upper chain
    fewer than [2 * n]. *)
Theorem AndrewsConvex_hull_within_array points j :
  points <> [] ->
  (length (fold_left (chain_step 2) (firstn j points) []) <= length points)%nat
  /\ (length (fold_left (chain_step (S (length (lower_chain points))))
                (firstn j (rev (removelast points))) (lower_chain points))
      < 2 * length points)%nat.
Proof.
  intros Hne.
  assert (Hrem : (length (removelast points) < length points)%nat).
  { clear -Hne. induction points as [|a [|b r] IH]; [congruence|cbn; lia|].
    cbn [removelast length] in *.
    specialize (IH ltac:(discriminate)). lia. }
  split.
  - pose proof (chain_length_le 2 (firstn j points) []) as H.
    pose proof (length_firstn j points) as Hf. cbn [length] in H. lia.
  - pose proof (chain_length_le (S (length (lower_chain points)))
                  (firstn j (rev (removelast points))) (lower_chain points))
      as H.
    pose proof (chain_length_le 2 points []) as Hl.
    fold (lower_chain points) in Hl. cbn [length] in Hl.
    pose proof (length_firstn j (rev (removelast points))) as Hf.
    rewrite length_rev in Hf. lia.
Qed.

(** ** The vertices *)

(** Every vertex of the hull is one of the input points, whatever the sort
    does with the order, as long as it only returns points it was given. *)
Theorem AndrewsConvex_hull_vertices_are_input points :
  (forall q, In q (sort points) -> In q points) ->
  incl (fst (AndrewsConvex_hull sort points)) points.
Proof.
  intros Hsort p Hp. eapply AndrewsConvex_hull_incl; eassumption.
Qed.

(** ** The turns of the hull *)

(** The returned list followed by its first vertex is the stack the upper
    chain leaves, bottom first. *)
Lemma AndrewsConvex_hull_closed points :
  (3 < length points)%nat ->
  let hull := fst (AndrewsConvex_hull sort points) in
  hull = [] \/ hull ++ firstn 1 hull
               = rev (upper_chain (sort points) (lower_chain (sort points))).
Proof.
  intros Hn. unfold AndrewsConvex_hull.
  apply Nat.leb_gt in Hn. rewrite Hn. cbn [fst]. cbn zeta.
  destruct (sort points) as [|first [|second rest]];
    [left; reflexivity|left; reflexivity|right].
  destruct (upper_chain_cons first (second :: rest)) as (u & -> & _);
    [discriminate|].
  destruct (lower_chain_cons first (second :: rest)) as (l & -> & _).
  cbn [tl rev]. rewrite !rev_app_distr. cbn [rev app firstn].
  rewrite <- !app_assoc. reflexivity.
Qed.

(** C5, as amended.  With more than three points, close the returned list
    with its first vertex.  Any three vertices at consecutive positions
    [j], [j + 1], [j + 2] of that list, the closing ones
    [hull[m - 2]], [hull[m - 1]], [hull[0]] included, have a cross product
    that is not [<= 0], unless the third is the first vertex of the upper
    chain: that one is stored without a test. *)
Theorem AndrewsConvex_hull_left_turns points j o a b :
  (3 < length points)%nat ->
  let hull := fst (AndrewsConvex_hull sort points) in
  nth_error (hull ++ firstn 1 hull) j = Some o ->
  nth_error (hull ++ firstn 1 hull) (j + 1) = Some a ->
  nth_error (hull ++ firstn 1 hull) (j + 2) = Some b ->
  (j + 2)%nat <> length (lower_chain (sort points)) ->
  not_left_turn o a b = false.
Proof.
  intros Hn hull.
  destruct (AndrewsConvex_hull_closed points Hn) as [E|E]; fold hull in E;
    rewrite E.
  - destruct j; discriminate.
  - apply (left_turns_rev sort), (upper_chain_left_turns sort).
Qed.

End ChainProperties.

(** ** The order of the points *)

Lemma SFcompare_antisym (u v : spec_float) :
  SFcompare v u = option_map CompOpp (SFcompare u v).
Proof.
  destruct u as [[|]|[|]| |[|] m1 e1], v as [[|]|[|]| |[|] m2 e2];
    cbn; trivial;
    rewrite (Z.compare_antisym e1 e2);
    destruct (e1 ?= e2); cbn; trivial;
    rewrite (Pos.compare_cont_antisym m1 m2 Eq); reflexivity.
Qed.

Lemma ltb_irrefl (u : spec_float) : ltb u u = false.
Proof.
  unfold ltb, SFltb. pose proof (SFcompare_antisym u u) as H.
  destruct (SFcompare u u) as [[| |]|]; trivial. discriminate.
Qed.

Lemma ltb_asym (u v : spec_float) :
  ltb u v = true -> ltb v u = false /\ eqb v u = false.
Proof.
  unfold ltb, eqb, SFltb, SFeqb. rewrite (SFcompare_antisym u v).
  destruct (SFcompare u v) as [[| |]|]; cbn; try discriminate. now split.
Qed.

Lemma eqb_sym_not_ltb (u v : spec_float) :
  eqb u v = true -> ltb v u = false /\ eqb v u = true.
Proof.
  unfold ltb, eqb, SFltb, SFeqb. rewrite (SFcompare_antisym u v).
  destruct (SFcompare u v) as [[| |]|]; cbn; try discriminate. now split.
Qed.

(** [operator<] of [PointAndrews] is irreflexive and asymmetric, for every
    coordinate, NaN and the infinities included. *)
Theorem PointAndrews_lt_strict :
  (forall p, PointAndrews.lt p p = false)
  /\ (forall p q, PointAndrews.lt p q = true -> PointAndrews.lt q p = false).
Proof.
  unfold PointAndrews.lt. split.
  - intros p. rewrite !ltb_irrefl. now rewrite andb_false_r.
  - intros p q H. apply orb_true_iff in H as [H|H].
    + apply ltb_asym in H as [-> ->]. reflexivity.
    + apply andb_true_iff in H as [Hx Hy].
      apply eqb_sym_not_ltb in Hx as [-> ->].
      apply ltb_asym in Hy as [-> _]. reflexivity.
Qed.

Lemma insert_sorted_In p l q :
  In q (insert_sorted p l) -> q = p \/ In q l.
Proof.
  induction l as [|a l IH]; cbn.
  - intros [<-|[]]. now left.
  - destruct (PointAndrews.lt a p); cbn.
    + intros [<-|H]; [right; now left|].
      destruct (IH H); [now left|right; now right].
    + intros [<-|[<-|H]]; auto.
Qed.

Lemma insertion_sort_In l q : In q (insertion_sort l) -> In q l.
Proof.
  induction l as [|a l IH]; cbn; [trivial|].
  intros H. apply insert_sorted_In in H as [->|H]; [now left|right; auto].
Qed.

(** * The further properties at concrete inputs *)

(** The first line classified against the second, taken as hull. *)
Lemma findPointsInHull_points_at_indices_witness :
  length [xyz 1 (-1) 0] = length [1%N]
  /\ StronglySorted N.lt [1%N]
  /\ (forall i, In i [1%N]
                <-> inside_at (fun p => on_vertex p line_b) line_a i)
  /\ Forall2 (fun q i => nth_error line_a (N.to_nat i) = Some q)
             [xyz 1 (-1) 0] [1%N].
Proof.
  apply (findPointsInHull_points_at_indices on_vertex line_a line_a [] line_b).
  reflexivity.
Defined.

(** A second call after the minimal-memory run on the two lines. *)
Lemma computePointsInBothHulls_single_use_witness :
  HullOverlap.computeHullsAndPointsInBothHulls project_in_plane on_vertex
    whole_cloud whole_cloud_indices insertion_sort
    counters_at_zero counters_at_zero (fst (fst minimal_run)) None None false
  = Undefined.
Proof.
  apply (computePointsInBothHulls_single_use project_in_plane on_vertex
           whole_cloud whole_cloud_indices insertion_sort
           counters_at_zero counters_at_zero
           (plane_z0 line_a line_b "Andrew's") (Some []) (Some [])
           (fst (fst minimal_run)) (snd (fst minimal_run)) (snd minimal_run)).
  vm_compute. reflexivity.
Defined.


(** Line 0 after the minimal-memory run on the two lines. *)
Lemma minimal_memory_records_no_indices_witness :
  HullOverlap.getNbPointsInOverlap (fst (fst minimal_run)) 0
  = HullOverlap.getNbPointsInOverlap (plane_z0 line_a line_b "Andrew's") 0
  /\ HullOverlap.getConstPtrlineInBothHullPointIndices (fst (fst minimal_run)) 0
     = HullOverlap.getConstPtrlineInBothHullPointIndices
         (plane_z0 line_a line_b "Andrew's") 0
  /\ HullOverlap.getConstPtrlineInPlane2D (fst (fst minimal_run)) 0 = None
  /\ HullOverlap.getConstPtrlineInPlane3D (fst (fst minimal_run)) 0 = None.
Proof.
  apply (minimal_memory_records_no_indices project_in_plane on_vertex
           whole_cloud whole_cloud_indices insertion_sort
           counters_at_zero counters_at_zero
           (plane_z0 line_a line_b "Andrew's") [] []
           (fst (fst minimal_run)) (snd (fst minimal_run)) (snd minimal_run)).
  vm_compute. reflexivity.
Defined.

(** The clouds kept by the full run on the two lines. *)
Lemma full_mode_keeps_parallel_clouds_witness :
  exists l1d l2d,
    HullOverlap.getConstPtrlineInPlane3D (fst (fst full_run)) 0
    = Some (project_in_plane
              (HullOverlap.coefficients (plane_z0 line_a line_b "Andrew's"))
              (HullOverlap.line1 (plane_z0 line_a line_b "Andrew's")))
    /\ HullOverlap.getConstPtrlineInPlane3D (fst (fst full_run)) 1
       = Some (project_in_plane
                 (HullOverlap.coefficients (plane_z0 line_a line_b "Andrew's"))
                 (HullOverlap.line2 (plane_z0 line_a line_b "Andrew's")))
    /\ HullOverlap.getConstPtrlineInPlane2D (fst (fst full_run)) 0 = Some l1d
    /\ HullOverlap.getConstPtrlineInPlane2D (fst (fst full_run)) 1 = Some l2d
    /\ length l1d
       = length (project_in_plane
                   (HullOverlap.coefficients (plane_z0 line_a line_b "Andrew's"))
                   (HullOverlap.line1 (plane_z0 line_a line_b "Andrew's")))
    /\ length l2d
       = length (project_in_plane
                   (HullOverlap.coefficients (plane_z0 line_a line_b "Andrew's"))
                   (HullOverlap.line2 (plane_z0 line_a line_b "Andrew's")))
    /\ Forall (fun p => PointXYZ.z p = F32.of_Z 0) (l1d ++ l2d).
Proof.
  apply (full_mode_keeps_parallel_clouds project_in_plane on_vertex
           whole_cloud whole_cloud_indices insertion_sort
           counters_at_zero counters_at_zero
           (plane_z0 line_a line_b "Andrew's") (Some []) (Some [])
           (fst (fst full_run)) (snd (fst full_run)) (snd full_run)).
  vm_compute. reflexivity.
Defined.


(** Both queries after the minimal-memory run without clouds. *)
Lemma minimal_memory_3D_box_reads_released_cloud_witness :
  HullOverlap.getMinMaxPointsInOverlapPlane3D (fst (fst minimal_index_run))
    (xyz 0 0 0) (xyz 0 0 0) = Undefined
  /\ exists minPt' maxPt',
       HullOverlap.getMinMaxPointsInOverlapPlane2D (fst (fst minimal_index_run))
         (xyz 0 0 0) (xyz 0 0 0)
       = Returned (true, minPt', maxPt').
Proof.
  apply (minimal_memory_3D_box_reads_released_cloud project_in_plane on_vertex
           whole_cloud whole_cloud_indices insertion_sort
           counters_at_zero counters_at_zero
           (plane_z0 line_a line_b "Andrew's") None None
           (fst (fst minimal_index_run)) 1%N 1%N (snd minimal_index_run)).
  - vm_compute. reflexivity.
  - now left.
  - lia.
  - lia.
Defined.

(** The full run on the two lines, repeated. *)
Lemma full_mode_call_repeats_witness :
  observed (HullOverlap.computeHullsAndPointsInBothHulls project_in_plane
              on_vertex whole_cloud whole_cloud_indices insertion_sort
              counters_at_zero counters_at_zero (fst (fst full_run))
              (Some []) (Some []) false)
  = Returned (snd (fst full_run), snd full_run).
Proof.
  apply (full_mode_call_repeats project_in_plane on_vertex
           whole_cloud whole_cloud_indices insertion_sort
           counters_at_zero counters_at_zero
           (plane_z0 line_a line_b "Andrew's") (Some []) (Some [])
           (fst (fst full_run)) (snd (fst full_run)) (snd full_run)).
  vm_compute. reflexivity.
Defined.

(** The two triangles, in minimal-memory mode with both clouds. *)
Lemma computeHullsAndPointsInBothHulls_returns_witness :
  exists result,
    run_on_triangles (Some []) (Some []) true = Returned result.
Proof.
  refine (computeHullsAndPointsInBothHulls_returns project_in_plane
            crossing_test whole_cloud whole_cloud_indices insertion_sort
            counters_at_zero counters_at_zero
            (plane_z0 line_p line_q "Andrew's") (Some []) (Some []) true
            _ _ _ _ _ _).
  - repeat split; discriminate.
  - reflexivity.
  - discriminate.
  - cbn. lia.
  - cbn. lia.
  - intros ref v1 v2 E. vm_compute in E. injection E as <- <- <-.
    intros h1 hi1 h2 hi2 H. vm_compute in H. injection H as <- <- <- <-.
    split; discriminate.
Defined.

(** The extreme points of the square. *)
Lemma AndrewsConvex_hull_extreme_points_witness :
  hd_error (fst (AndrewsConvex_hull insertion_sort square_points))
  = Some (hd (pa 0 0 0) (insertion_sort square_points))
  /\ nth_error (fst (AndrewsConvex_hull insertion_sort square_points))
               (length (lower_chain (insertion_sort square_points)) - 1)
     = Some (last (tl (insertion_sort square_points))
                  (hd (pa 0 0 0) (insertion_sort square_points)))
  /\ hd_error (upper_chain (insertion_sort square_points)
                 (lower_chain (insertion_sort square_points)))
     = Some (hd (pa 0 0 0) (insertion_sort square_points)).
Proof.
  apply (AndrewsConvex_hull_extreme_points insertion_sort square_points).
  - cbn. lia.
  - vm_compute. reflexivity.
  - vm_compute. discriminate.
Defined.

(** Three iterations of each chain on the square. *)
Lemma AndrewsConvex_hull_within_array_witness :
  (length (fold_left (chain_step 2) (firstn 3 square_points) [])
   <= length square_points)%nat
  /\ (length (fold_left (chain_step (S (length (lower_chain square_points))))
                (firstn 3 (rev (removelast square_points)))
                (lower_chain square_points))
      < 2 * length square_points)%nat.
Proof.
  apply (AndrewsConvex_hull_within_array square_points 3). discriminate.
Defined.

(** The hull of the square, with insertion sort. *)
Lemma AndrewsConvex_hull_vertices_are_input_witness :
  incl (fst (AndrewsConvex_hull insertion_sort square_points)) square_points.
Proof.
  apply (AndrewsConvex_hull_vertices_are_input insertion_sort square_points).
  intros q. apply insertion_sort_In.
Defined.

(** The first line, both counters starting at 1. *)
Lemma computeVerticesOfHullAndrews_traceable_witness :
  Forall2 (fun v i =>
             exists p, 0 <= i /\ nth_error line_a (Z.to_nat i) = Some p
                       /\ PointXYZ.x v = PointXYZ.x p
                       /\ PointXYZ.y v = PointXYZ.y p)
          [xyz 1 (-1) 0; xyz 2 0 0] [1; 2].
Proof.
  apply (computeVerticesOfHullAndrews_traceable insertion_sort
           (HullOverlap.Indeterminate 0 1 1) line_a [] []).
  - apply insertion_sort_In.
  - cbn. lia.
  - reflexivity.
  - reflexivity.
Defined.

(** The first triangle against an empty second line. *)
Lemma empty_line2_read_out_of_range_witness :
  HullOverlap.computeHullsAndPointsInBothHulls project_in_plane crossing_test
    whole_cloud whole_cloud_indices insertion_sort
    counters_at_zero counters_at_zero
    (plane_z0 line_p [] "Andrew's") (Some []) (Some []) false
  = Undefined.
Proof.
  apply (empty_line2_read_out_of_range project_in_plane crossing_test
           whole_cloud whole_cloud_indices insertion_sort
           counters_at_zero counters_at_zero
           (plane_z0 line_p [] "Andrew's") (Some []) (Some []) false).
  - reflexivity.
  - reflexivity.
  - reflexivity.
Defined.

(** Both queries on a new engine. *)
Lemma getMinMaxPointsInOverlapPlane_without_overlap_witness :
  HullOverlap.getMinMaxPointsInOverlapPlane2D
    (plane_z0 line_a line_b "Andrew's") (xyz 1 2 3) (xyz 4 5 6)
  = Returned (false, xyz 1 2 3, xyz 4 5 6)
  /\ HullOverlap.getMinMaxPointsInOverlapPlane3D
       (plane_z0 line_a line_b "Andrew's") (xyz 1 2 3) (xyz 4 5 6)
     = Returned (false, xyz 1 2 3, xyz 4 5 6).
Proof.
  apply (getMinMaxPointsInOverlapPlane_without_overlap
           (plane_z0 line_a line_b "Andrew's") (xyz 1 2 3) (xyz 4 5 6)).
  now left.
Defined.

(** * The hull and the null cloud at concrete inputs *)

(** C5 as amended, on the unit square with its first corner repeated: the
    hull is the four corners, the lower chain holds three of them, and the
    triple that closes the list, (1, 1), (0, 1), (0, 0), is a left turn. *)
Lemma AndrewsConvex_hull_left_turns_witness :
  not_left_turn (pa 1 1 2) (pa 0 1 3) (pa 0 0 0) = false.
Proof.
  apply (AndrewsConvex_hull_left_turns insertion_sort square_points 2).
  - cbn. lia.
  - reflexivity.
  - reflexivity.
  - reflexivity.
  - vm_compute. lia.
Defined.

